(** * component-agentTestter: the search scraper and the page reader

    A shallow embedding of [upgradescraper.py] (cache key, pickle cache with
    a 24 hour time to live, extraction of result records from the Brave
    result page, success and error envelopes) and of [readle.py] (the
    single-page reader), with the properties of their specification.

    Python values are modelled as follows.
    - [str] is a sequence of Unicode code points, [list N]; lone surrogates
      are code points like the others, as in Python.
    - [int] is [Z].
    - [time.time()] and [datetime] differences are counted in whole
      microseconds ([Z]); the binary floating point rounding of
      [total_seconds()] and of [time.time()] is not modelled.
    - dictionaries with a fixed set of keys are records.
    - exceptions are values of [exn]; a computation that can raise returns an
      [exc]. *)

From Stdlib Require Import ZArith NArith Ascii String Lia.
From Stdlib Require Import DecimalString DecimalZ DecimalPos.
From stdpp Require Import base option list gmap.

Local Open Scope Z_scope.

(** ** Python strings *)

Module PyStr.

Abbreviation pystr := (list N).

(** A literal of the source text, as code points. *)
Definition lit (s : string) : pystr :=
  map N_of_ascii (list_ascii_of_string s).

(** [str.isspace] on one character ([Py_UNICODE_ISSPACE]). *)
Definition isspace (c : N) : bool :=
  ((9 <=? c) && (c <=? 13) || (28 <=? c) && (c <=? 32)
   || (c =? 133) || (c =? 160) || (c =? 5760)
   || (8192 <=? c) && (c <=? 8202)
   || (c =? 8232) || (c =? 8233) || (c =? 8239) || (c =? 8287)
   || (c =? 12288))%N.

Fixpoint lstrip (s : pystr) : pystr :=
  match s with
  | c :: s' => if isspace c then lstrip s' else s
  | [] => []
  end.

Definition rstrip (s : pystr) : pystr := rev (lstrip (rev s)).

(** [s.strip()] *)
Definition strip (s : pystr) : pystr := rstrip (lstrip s).

(** [s.split()] : the maximal runs of characters that are not white space.
    [cur] is the run being read, in reverse. *)
Fixpoint split_ws_aux (cur : pystr) (s : pystr) : list pystr :=
  match s with
  | [] => match cur with [] => [] | _ => [rev cur] end
  | c :: s' =>
      if isspace c
      then match cur with
           | [] => split_ws_aux [] s'
           | _ => rev cur :: split_ws_aux [] s'
           end
      else split_ws_aux (c :: cur) s'
  end.

Definition split_ws (s : pystr) : list pystr := split_ws_aux [] s.

(** [sep.join(parts)] *)
Fixpoint join (sep : pystr) (parts : list pystr) : pystr :=
  match parts with
  | [] => []
  | [p] => p
  | p :: ps => p ++ sep ++ join sep ps
  end.

(** [s.split(sep)] for a separator of one character: every occurrence
    splits, empty pieces are kept, and the result is never empty. *)
Fixpoint split_on_aux (sep : N) (cur : pystr) (s : pystr) : list pystr :=
  match s with
  | [] => [rev cur]
  | c :: s' =>
      if (c =? sep)%N then rev cur :: split_on_aux sep [] s'
      else split_on_aux sep (c :: cur) s'
  end.

Definition split_on (sep : N) (s : pystr) : list pystr :=
  split_on_aux sep [] s.

(** [s.startswith(p)] *)
Fixpoint startswith (s p : pystr) : bool :=
  match p, s with
  | [], _ => true
  | a :: p', b :: s' => (a =? b)%N && startswith s' p'
  | _ :: _, [] => false
  end.

(** [needle in hay] *)
Fixpoint contains (needle hay : pystr) : bool :=
  startswith hay needle ||
  match hay with
  | [] => false
  | _ :: hay' => contains needle hay'
  end.

(** [str(n)] for an [int]. *)
Definition str_of_int (n : Z) : pystr :=
  lit (NilZero.string_of_int (Z.to_int n)).

(** Truth value of a string: the empty string is false. *)
Definition truthy (s : pystr) : bool :=
  match s with [] => false | _ => true end.

End PyStr.

Import PyStr.

(** ** The built-in [hash] of a string

    CPython (3.11 and later, on a 64-bit little-endian machine) hashes the
    internal buffer of the string with SipHash-1-3, keyed by a secret of the
    process.  Unless [PYTHONHASHSEED] fixes it, the secret is drawn from the
    operating system when the interpreter starts. *)

Module PyHash.

Definition mask64 : Z := 18446744073709551615.

Definition w64 (x : Z) : Z := Z.land x mask64.

Definition rotl (x b : Z) : Z :=
  w64 (Z.lor (Z.shiftl x b) (Z.shiftr x (64 - b))).

Record sip := Sip { v0 : Z; v1 : Z; v2 : Z; v3 : Z }.

(** [HALF_ROUND(a,b,c,d,s,t)] *)
Definition half_round (a b c d s t : Z) : Z * Z * Z * Z :=
  let a := w64 (a + b) in
  let c := w64 (c + d) in
  let b := Z.lxor (rotl b s) a in
  let d := Z.lxor (rotl d t) c in
  let a := rotl a 32 in
  (a, b, c, d).

(** [SINGLE_ROUND(v0,v1,v2,v3)] *)
Definition single_round (v : sip) : sip :=
  let '(a, b, c, d) := half_round (v0 v) (v1 v) (v2 v) (v3 v) 13 16 in
  let '(c, b, a, d) := half_round c b a d 17 21 in
  Sip a b c d.

(** Little-endian value of a run of bytes. *)
Fixpoint le_bytes (bs : list Z) : Z :=
  match bs with
  | [] => 0
  | b :: bs' => Z.lor b (Z.shiftl (le_bytes bs') 8)
  end.

Definition absorb (v : sip) (m : Z) : sip :=
  let v := Sip (v0 v) (v1 v) (v2 v) (Z.lxor (v3 v) m) in
  let v := single_round v in
  Sip (Z.lxor (v0 v) m) (v1 v) (v2 v) (v3 v).

(** The loop over whole words of eight bytes; the result carries the tail
    of fewer than eight bytes. *)
Fixpoint sip_blocks (v : sip) (src : list Z) : sip * list Z :=
  match src with
  | b0 :: b1 :: b2 :: b3 :: b4 :: b5 :: b6 :: b7 :: rest =>
      sip_blocks (absorb v (le_bytes [b0; b1; b2; b3; b4; b5; b6; b7])) rest
  | _ => (v, src)
  end.

Definition siphash13 (k0 k1 : Z) (src : list Z) : Z :=
  let b := w64 (Z.shiftl (Z.of_nat (length src)) 56) in
  let v := Sip (Z.lxor k0 8317987319222330741)
               (Z.lxor k1 7237128888997146477)
               (Z.lxor k0 7816392313619706465)
               (Z.lxor k1 8387220255154660723) in
  let '(v, tail) := sip_blocks v src in
  let b := Z.lor b (le_bytes tail) in
  let v := absorb v b in
  let v := Sip (v0 v) (v1 v) (Z.lxor (v2 v) 255) (v3 v) in
  let v := single_round (single_round (single_round v)) in
  Z.lxor (Z.lxor (v0 v) (v1 v)) (Z.lxor (v2 v) (v3 v)).

(** The secret of a process: the two key words of [_Py_HashSecret]. *)
Record hash_secret := Secret { k0 : Z; k1 : Z }.

(** The bytes of [_Py_HashSecret] under [PYTHONHASHSEED=seed]: zero for seed
    0, else the linear congruential generator [lcg_urandom]. *)
Fixpoint lcg_urandom (x : Z) (size : nat) : list Z :=
  match size with
  | O => []
  | S size' =>
      let x := (x * 214013 + 2531011) mod 4294967296 in
      Z.land (Z.shiftr x 16) 255 :: lcg_urandom x size'
  end.

Definition secret_of_hashseed (seed : Z) : hash_secret :=
  if seed =? 0 then Secret 0 0
  else
    let bytes := lcg_urandom seed 24 in
    Secret (le_bytes (take 8 bytes)) (le_bytes (take 8 (drop 8 bytes))).

(** The internal buffer of a string: one, two or four bytes for each
    character, by the largest code point, low byte first. *)
Definition char_width (s : pystr) : nat :=
  if forallb (fun c => (c <? 256)%N) s then 1%nat
  else if forallb (fun c => (c <? 65536)%N) s then 2%nat
  else 4%nat.

Fixpoint le_of (width : nat) (c : Z) : list Z :=
  match width with
  | O => []
  | S w => Z.land c 255 :: le_of w (Z.shiftr c 8)
  end.

Definition buffer (s : pystr) : list Z :=
  let w := char_width s in
  flat_map (fun c => le_of w (Z.of_N c)) s.

(** [hash(s)] in a process with the given secret ([unicode_hash],
    [_Py_HashBytes]): 0 for the empty string, never -1. *)
Definition hash (sec : hash_secret) (s : pystr) : Z :=
  match s with
  | [] => 0
  | _ =>
      let t := siphash13 (k0 sec) (k1 sec) (buffer s) in
      let x := if t <? 9223372036854775808 then t
               else t - 18446744073709551616 in
      if x =? -1 then -2 else x
  end.

End PyHash.

Import PyHash.

(** ** Exceptions *)

Inductive exn_kind :=
  | UnicodeEncodeError | KeyError | IndexError | TypeError | ValueError
  | AttributeError | UnpicklingError | OSError | HTTPError | ParserError.

(** An exception: its class and the text [str(e)] gives. *)
Record exn := Exn { exn_class : exn_kind; exn_str : pystr }.

Inductive exc (A : Type) :=
  | Ok (a : A)
  | Err (e : exn).
Arguments Ok {A} a.
Arguments Err {A} e.

(** ** [urllib.parse.quote] *)

Module UrlQuote.

(** [s.encode("utf-8", "strict")]: a surrogate cannot be encoded. *)
Definition utf8_char (c : N) : option (list Z) :=
  let z := Z.of_N c in
  if z <? 128 then Some [z]
  else if z <? 2048 then
    Some [Z.lor 192 (Z.shiftr z 6); Z.lor 128 (Z.land z 63)]
  else if (55296 <=? z) && (z <=? 57343) then None
  else if z <? 65536 then
    Some [Z.lor 224 (Z.shiftr z 12);
          Z.lor 128 (Z.land (Z.shiftr z 6) 63);
          Z.lor 128 (Z.land z 63)]
  else
    Some [Z.lor 240 (Z.shiftr z 18);
          Z.lor 128 (Z.land (Z.shiftr z 12) 63);
          Z.lor 128 (Z.land (Z.shiftr z 6) 63);
          Z.lor 128 (Z.land z 63)].

Fixpoint utf8_encode (s : pystr) : exc (list Z) :=
  match s with
  | [] => Ok []
  | c :: s' =>
      match utf8_char c with
      | None => Err (Exn UnicodeEncodeError (lit "surrogates not allowed"))
      | Some bs =>
          match utf8_encode s' with
          | Ok rest => Ok (bs ++ rest)
          | Err e => Err e
          end
      end
  end.

(** The bytes [quote] leaves as they are: letters, digits, [_.-~] and the
    default [safe="/"]. *)
Definition is_safe (b : Z) : bool :=
  (65 <=? b) && (b <=? 90) || (97 <=? b) && (b <=? 122)
  || (48 <=? b) && (b <=? 57)
  || (b =? 95) || (b =? 46) || (b =? 45) || (b =? 126) || (b =? 47).

Definition hex_digit (d : Z) : N :=
  Z.to_N (if d <? 10 then 48 + d else 55 + d).

Definition quote_byte (b : Z) : pystr :=
  if is_safe b then [Z.to_N b]
  else [37%N; hex_digit (Z.shiftr b 4); hex_digit (Z.land b 15)].

Definition quote (s : pystr) : exc pystr :=
  match s with
  | [] => Ok []
  | _ =>
      match utf8_encode s with
      | Ok bs => Ok (flat_map quote_byte bs)
      | Err e => Err e
      end
  end.

End UrlQuote.

Import UrlQuote.

(** ** [datetime] *)

Module PyDatetime.

(** A naive [datetime] object. *)
Record datetime := Datetime {
  year : Z; month : Z; day : Z;
  hour : Z; minute : Z; second : Z; microsecond : Z }.

Definition is_leap (y : Z) : bool :=
  (y mod 4 =? 0) && (negb (y mod 100 =? 0) || (y mod 400 =? 0)).

Definition days_in_month (y m : Z) : Z :=
  if m =? 2 then (if is_leap y then 29 else 28)
  else if (m =? 4) || (m =? 6) || (m =? 9) || (m =? 11) then 30
  else 31.

(** The checks of the constructor of [datetime]. *)
Definition valid_datetime (d : datetime) : bool :=
  (1 <=? year d) && (year d <=? 9999)
  && (1 <=? month d) && (month d <=? 12)
  && (1 <=? day d) && (day d <=? days_in_month (year d) (month d))
  && (0 <=? hour d) && (hour d <=? 23)
  && (0 <=? minute d) && (minute d <=? 59)
  && (0 <=? second d) && (second d <=? 59)
  && (0 <=? microsecond d) && (microsecond d <=? 999999).

Definition days_before_year (y : Z) : Z :=
  let p := y - 1 in p * 365 + p / 4 - p / 100 + p / 400.

Fixpoint days_before_month_aux (y : Z) (m : nat) : Z :=
  match m with
  | O => 0
  | S m' => days_before_month_aux y m' + days_in_month y (Z.of_nat m)
  end.

Definition days_before_month (y m : Z) : Z :=
  days_before_month_aux y (Z.to_nat (m - 1)).

(** [d.toordinal()] *)
Definition ymd2ord (d : datetime) : Z :=
  days_before_year (year d) + days_before_month (year d) (month d) + day d.

(** Microseconds since the start of day 0 of the proleptic calendar. *)
Definition to_us (d : datetime) : Z :=
  (((ymd2ord d * 24 + hour d) * 60 + minute d) * 60 + second d) * 1000000
  + microsecond d.

(** [(a - b)] in microseconds; [(a - b).total_seconds()] is this number
    divided by 10^6. *)
Definition sub_us (a b : datetime) : Z := to_us a - to_us b.

Definition day_us : Z := 24 * 3600 * 1000000.

(** The last [k] decimal digits of [n], zero padded, high digit first. *)
Fixpoint digits (k : nat) (n : Z) : pystr :=
  match k with
  | O => []
  | S k' => Z.to_N (48 + (n / 10 ^ Z.of_nat k') mod 10) :: digits k' n
  end.

(** [d.isoformat()]: [YYYY-MM-DDTHH:MM:SS], then [.ffffff] when the
    microseconds are not zero. *)
Definition isoformat (d : datetime) : pystr :=
  digits 4 (year d) ++ lit "-" ++ digits 2 (month d) ++ lit "-"
  ++ digits 2 (day d) ++ lit "T" ++ digits 2 (hour d) ++ lit ":"
  ++ digits 2 (minute d) ++ lit ":" ++ digits 2 (second d)
  ++ (if microsecond d =? 0 then [] else lit "." ++ digits 6 (microsecond d)).

(** What [datetime.fromisoformat] returns: a naive [datetime], or one with a
    time zone (which cannot be subtracted from [datetime.now()]). *)
Inductive iso_result :=
  | Naive (d : datetime)
  | Aware.

End PyDatetime.

Import PyDatetime.

(** ** The parsed page

    The tree [BeautifulSoup(text, "html.parser")] builds, cut down to what
    the two programs look at: text nodes, and elements with their name,
    the tokens of their [class] attribute, their [href] attribute if they
    have one, and their children.  Comments and the text of scripts and
    styles, which [get_text] leaves out, are not part of the tree. *)

Module Dom.

#[local] Set Warnings "-register-all".

Inductive node :=
  | Text (s : pystr)
  | Elem (name : pystr) (class_ : list pystr) (href : option pystr)
         (children : list node).

(** [tag.descendants]: the nodes below [n], in document order. *)
Fixpoint descendants (n : node) : list node :=
  match n with
  | Text _ => []
  | Elem _ _ _ cs => flat_map (fun c => c :: descendants c) cs
  end.

Fixpoint str_eqb (a b : pystr) : bool :=
  match a, b with
  | [], [] => true
  | x :: a', y :: b' => (x =? y)%N && str_eqb a' b'
  | _, _ => false
  end.

Definition mem (x : pystr) (l : list pystr) : bool := existsb (str_eqb x) l.

(** The filter [name] of [find] and [find_all], for one name or a list. *)
Definition named (names : list pystr) (n : node) : bool :=
  match n with
  | Elem nm _ _ _ => mem nm names
  | Text _ => false
  end.

(** The filter [class_=[...]]: one token of the element's class is one of
    the listed classes. *)
Definition has_class (classes : list pystr) (n : node) : bool :=
  match n with
  | Elem _ cl _ _ => existsb (fun c => mem c classes) cl
  | Text _ => false
  end.

(** The filter [href=True]: the attribute is there. *)
Definition has_href (n : node) : bool :=
  match n with
  | Elem _ _ (Some _) _ => true
  | _ => false
  end.

(** [tag.find_all(...)] and [tag.find(...)] for a filter [p]. *)
Definition find_all (p : node -> bool) (n : node) : list node :=
  List.filter p (descendants n).

Definition find (p : node -> bool) (n : node) : option node :=
  head (find_all p n).

(** The strings below a tag. *)
Definition strings (n : node) : list pystr :=
  omap (fun d => match d with Text s => Some s | Elem _ _ _ _ => None end)
       (descendants n).

(** [tag.get_text(separator, strip)]: with [strip], every string is
    stripped and the empty ones are dropped. *)
Definition get_text (separator : pystr) (strip_ : bool) (n : node) : pystr :=
  join separator
       (if strip_ then List.filter truthy (map strip (strings n))
        else strings n).

(** [tag.string]: the string of a tag that has one child only, followed
    down through such tags; [None] otherwise. *)
Fixpoint string_of (n : node) : option pystr :=
  match n with
  | Text s => Some s
  | Elem _ _ _ [c] => string_of c
  | Elem _ _ _ _ => None
  end.

(** [tag["href"]] *)
Definition getitem_href (n : node) : exc pystr :=
  match n with
  | Elem _ _ (Some h) _ => Ok h
  | _ => Err (Exn KeyError (lit "'href'"))
  end.

End Dom.

Import Dom.

(** ** What lies outside the two programs *)

(** An HTTP response: [raise_for_status] raises [status_error], which the
    HTTP library builds from the status line and the URL. *)
Record response := Response {
  status_code : Z;
  text : pystr;
  status_error : exn }.

(** What holds for a whole run of the interpreter: the secret of [hash], and
    the library functions the programs call and this development does not
    define. *)
Record runtime := Runtime {
  secret : hash_secret;
  fromisoformat : pystr -> option iso_result;
  html_parser : pystr -> exc node;
  urlparse_netloc : pystr -> exc pystr }.

(** ** upgradescraper.py *)

Module UpgradeScraper.

(** The value under ["fetched_at"]: the key can be missing, and the value a
    string, a [datetime], or any other object. *)
Inductive timestamp :=
  | TsMissing
  | TsStr (s : pystr)
  | TsDatetime (d : datetime)
  | TsOther.

Record search_parameters := SearchParameters {
  query : pystr;
  engine : pystr;
  gl : pystr;
  hl : pystr;
  type_ : pystr;
  fetched_at : timestamp;
  latency_ms : Z }.

Record search_result := SearchResult {
  position : Z;
  title : pystr;
  link : pystr;
  snippet : pystr;
  domain : pystr;
  date : option pystr }.

Record debug_info := DebugInfo {
  user_agent : pystr;
  ip : pystr;
  result_count : Z }.

(** The dictionary [brave_search] returns; [message] is there in the error
    envelope only. *)
Record envelope := Envelope {
  status : pystr;
  message : option pystr;
  searchParameters : search_parameters;
  organic_results : list search_result;
  debug : debug_info }.

(** What [pickle.load] can give back: an envelope, or an object that has no
    ["searchParameters"] to look up. *)
Inductive pyobj :=
  | PyEnvelope (e : envelope)
  | PyOther.

(** A file of the cache directory: bytes that do not unpickle, or a pickled
    object. *)
Inductive file :=
  | Garbage
  | Pickled (o : pyobj).

(** The envelopes the program holds references to ([heap], a reference is an
    index), the files of the cache directory by path, and the URLs requested
    from the network so far, latest last. *)
Record state := State {
  heap : list envelope;
  files : gmap (list N) file;
  requests : list pystr }.

Inductive disk_outcome :=
  | WriteOk
  | OpenFails (e : exn)
  | DumpFails (e : exn).

(** What one call of [brave_search] reads from outside: the clocks, the
    draws of [faker], the answer of the network and the fate of the write
    to the cache file. *)
Record world := World {
  now_load : datetime;
  faker_user_agent : pystr;
  faker_ipv4_public : pystr;
  time_start : Z;
  client_get : pystr -> gmap (list N) pystr -> exc response;
  now_built : datetime;
  time_built : Z;
  disk : disk_outcome }.

(** Computations on the state that can raise. *)
Definition M (A : Type) : Type := state -> exc A * state.

Definition ret {A} (a : A) : M A := fun σ => (Ok a, σ).

Definition raise {A} (e : exn) : M A := fun σ => (Err e, σ).

Definition bind {A B} (m : M A) (k : A -> M B) : M B :=
  fun σ =>
    match m σ with
    | (Ok a, σ') => k a σ'
    | (Err e, σ') => (Err e, σ')
    end.

Definition lift {A} (r : exc A) : M A := fun σ => (r, σ).

(** [try: body / except Exception as e: handler e] *)
Definition try_except {A} (body : M A) (handler : exn -> M A) : M A :=
  fun σ =>
    match body σ with
    | (Ok a, σ') => (Ok a, σ')
    | (Err e, σ') => handler e σ'
    end.

Notation "x <- m ;; k" := (bind m (fun x => k))
  (at level 100, m at next level, right associativity).

(** A new envelope object; its reference is returned. *)
Definition alloc (e : envelope) : M nat :=
  fun σ => (Ok (length (heap σ)),
            State (heap σ ++ [e]) (files σ) (requests σ)).

Definition set_fetched_at (t : timestamp) (e : envelope) : envelope :=
  let p := searchParameters e in
  Envelope (status e) (message e)
    (SearchParameters (query p) (engine p) (gl p) (hl p) (type_ p) t
                      (latency_ms p))
    (organic_results e) (debug e).

(** [d[key]] on a dictionary of strings. *)
Definition getitem (d : gmap (list N) pystr) (key : pystr) : exc pystr :=
  match d !! key with
  | Some v => Ok v
  | None => Err (Exn KeyError key)
  end.

(** [l[i]] on a list. *)
Definition index {A} (l : list A) (i : nat) : exc A :=
  match l !! i with
  | Some x => Ok x
  | None => Err (Exn IndexError (lit "list index out of range"))
  end.

Definition CACHE_DIR : pystr := lit "search_cache".

Definition generate_headers (w : world) : gmap (list N) pystr :=
  <[lit "User-Agent" := faker_user_agent w]>
  (<[lit "Accept" :=
       lit "text/html,application/xhtml+xml,application/xml;q=0.9,*/*;q=0.8"]>
  (<[lit "Accept-Encoding" := lit "gzip, deflate"]>
  (<[lit "Accept-Language" := lit "en-US,en;q=0.9,id-ID;q=0.8"]>
  (<[lit "X-Forwarded-For" := faker_ipv4_public w]>
  (<[lit "Connection" := lit "keep-alive"]> ∅))))).

Definition get_cache_key (rt : runtime) (query : pystr) : pystr :=
  str_of_int (hash (secret rt) query).

(** [os.path.join(CACHE_DIR, f"{cache_key}.pkl")] *)
Definition cache_file_of (cache_key : pystr) : pystr :=
  CACHE_DIR ++ lit "/" ++ cache_key ++ lit ".pkl".

(** [cached["searchParameters"].get("fetched_at")] *)
Definition get_fetched_at (o : pyobj) : exc timestamp :=
  match o with
  | PyEnvelope e => Ok (fetched_at (searchParameters e))
  | PyOther => Err (Exn TypeError (lit "'searchParameters'"))
  end.

(** [(datetime.now() - fetched_at).total_seconds() < 24 * 3600], after the
    conversion of a string by [fromisoformat]. *)
Definition is_fresh (rt : runtime) (now : datetime) (t : timestamp)
  : exc bool :=
  match t with
  | TsStr s =>
      match fromisoformat rt s with
      | None => Err (Exn ValueError (lit "Invalid isoformat string"))
      | Some Aware =>
          Err (Exn TypeError
                 (lit "can't subtract offset-naive and offset-aware datetimes"))
      | Some (Naive d) => Ok (sub_us now d <? day_us)
      end
  | TsDatetime d => Ok (sub_us now d <? day_us)
  | TsMissing | TsOther =>
      Err (Exn TypeError (lit "unsupported operand type(s) for -"))
  end.

(** The body of the [try] of [load_from_cache].  The object read from the
    file enters the heap when it is returned. *)
Definition load_try (rt : runtime) (w : world) (cache_file : pystr)
  : M (option nat) :=
  fun σ =>
    match files σ !! cache_file with
    | None => (Ok None, σ)
    | Some Garbage => (Err (Exn UnpicklingError (lit "invalid load key")), σ)
    | Some (Pickled cached) =>
        (t <- lift (get_fetched_at cached) ;;
         fresh <- lift (is_fresh rt (now_load w) t) ;;
         if fresh
         then match cached with
              | PyEnvelope e => l <- alloc e ;; ret (Some l)
              | PyOther => ret None
              end
         else ret None) σ
    end.

Definition load_from_cache (rt : runtime) (w : world) (cache_key : pystr)
  : M (option nat) :=
  let cache_file := cache_file_of cache_key in
  try_except (load_try rt w cache_file) (fun _ => ret None).

(** [data["searchParameters"]["fetched_at"].isoformat()] *)
Definition isoformat_of (t : timestamp) : exc pystr :=
  match t with
  | TsDatetime d => Ok (isoformat d)
  | TsMissing => Err (Exn KeyError (lit "'fetched_at'"))
  | TsStr _ | TsOther =>
      Err (Exn AttributeError (lit "object has no attribute 'isoformat'"))
  end.

(** [with open(cache_file, "wb") as f: pickle.dump(data, f)]: opening the
    file for writing empties it, so a failure of the dump leaves bytes that
    do not unpickle. *)
Definition write_pickle (w : world) (cache_file : pystr) (e : envelope)
  : M unit :=
  fun σ =>
    match disk w with
    | WriteOk =>
        (Ok tt, State (heap σ)
                      (<[cache_file := Pickled (PyEnvelope e)]> (files σ))
                      (requests σ))
    | OpenFails ex => (Err ex, σ)
    | DumpFails ex =>
        (Err ex, State (heap σ) (<[cache_file := Garbage]> (files σ))
                       (requests σ))
    end.

(** The body of the [try] of [save_to_cache]; [data] is a reference, and the
    assignment changes the object it refers to. *)
Definition save_try (w : world) (cache_file : pystr) (data : nat) : M unit :=
  fun σ =>
    match heap σ !! data with
    | None => (Err (Exn TypeError (lit "no such object")), σ)
    | Some e =>
        (s <- lift (isoformat_of (fetched_at (searchParameters e))) ;;
         let e' := set_fetched_at (TsStr s) e in
         _ <- (fun σ1 => (Ok tt, State (<[data := e']> (heap σ1)) (files σ1)
                                       (requests σ1))) ;;
         write_pickle w cache_file e') σ
    end.

Definition save_to_cache (w : world) (cache_key : pystr) (data : nat)
  : M unit :=
  let cache_file := cache_file_of cache_key in
  try_except (save_try w cache_file data) (fun _ => ret tt).

Definition clean_text (text : pystr) : pystr :=
  if truthy text then join (lit " ") (split_ws (strip text)) else [].

(** [response.raise_for_status()] of httpx: every status outside 2xx
    raises. *)
Definition raise_for_status (r : response) : exc unit :=
  if (200 <=? status_code r) && (status_code r <=? 299) then Ok tt
  else Err (status_error r).

(** The request is entered in [requests]; the handler raises the error
    again. *)
Definition fetch_search_page (w : world) (url : pystr)
    (headers : gmap (list N) pystr) : M response :=
  try_except
    (fun σ =>
       let σ1 := State (heap σ) (files σ) (requests σ ++ [url]) in
       (response <- lift (client_get w url headers) ;;
        _ <- lift (raise_for_status response) ;;
        ret response) σ1)
    (fun e => raise e).

Definition candidate_classes : list pystr :=
  [lit "snippet"; lit "news-snippet"; lit "video-snippet"; lit "card"].

Definition is_candidate (n : node) : bool :=
  named [lit "div"] n && has_class candidate_classes n.

Definition is_link (n : node) : bool := named [lit "a"] n && has_href n.

Definition is_title (n : node) : bool :=
  named [lit "div"] n && has_class [lit "title"; lit "snippet-title"] n.

Definition is_description (n : node) : bool :=
  named [lit "div"] n
  && has_class [lit "snippet-content"; lit "description";
                lit "snippet-description"] n.

Definition is_age (n : node) : bool :=
  named [lit "span"] n
  && has_class [lit "age"; lit "date"; lit "time"; lit "snippet-age"] n.

Definition is_http (url : pystr) : bool :=
  startswith url (lit "http://") || startswith url (lit "https://").

(** One turn of the loop after the test of the limit: [Ok None] is
    [continue], [Ok (Some r)] is the record appended; [count] is
    [len(organic_results)]. *)
Definition scan_item (filter_domain : option pystr) (count : nat)
    (item : node) : exc (option search_result) :=
  match find is_link item with
  | None => Ok None
  | Some a_tag =>
      match getitem_href a_tag with
      | Err e => Err e
      | Ok result_url =>
          if negb (is_http result_url) then Ok None
          else if match filter_domain with
                  | Some d => truthy d && negb (contains d result_url)
                  | None => false
                  end
          then Ok None
          else
            let title_elem :=
              match find is_title item with
              | Some t => t
              | None => a_tag
              end in
            let title := clean_text (get_text [] true title_elem) in
            let snippet :=
              match find is_description item with
              | Some d => clean_text (get_text [] true d)
              | None => clean_text (get_text (lit " ") true item)
              end in
            let date :=
              match find is_age item with
              | Some d => Some (clean_text (get_text [] true d))
              | None => None
              end in
            if (Z.of_nat (length snippet) <? 30)
               || (Z.of_nat (length title) <? 5)
            then Ok None
            else
              match index (split_on 47 result_url) 2 with
              | Err e => Err e
              | Ok dom =>
                  Ok (Some (SearchResult (Z.of_nat count + 1) title result_url
                              snippet dom
                              (match date with
                               | Some d => if truthy d then Some d else None
                               | None => None
                               end)))
              end
      end
  end.

(** The loop over the candidates; [organic_results] is the list built so
    far. *)
Fixpoint scan (limit : Z) (filter_domain : option pystr)
    (items : list node) (organic_results : list search_result)
  : exc (list search_result) :=
  match items with
  | [] => Ok organic_results
  | item :: rest =>
      if Z.of_nat (length organic_results) >=? limit then Ok organic_results
      else
        match scan_item filter_domain (length organic_results) item with
        | Err e => Err e
        | Ok None => scan limit filter_domain rest organic_results
        | Ok (Some result) =>
            scan limit filter_domain rest (organic_results ++ [result])
        end
  end.

Definition extract (soup : node) (limit : Z) (filter_domain : option pystr)
  : exc (list search_result) :=
  scan limit filter_domain (find_all is_candidate soup) [].

(** [int((time.time() - start) * 1000)], the clock read in microseconds. *)
Definition latency (w : world) : Z := Z.quot (time_built w - time_start w) 1000.

Definition error_envelope (w : world) (query : pystr) (e : exn)
    (headers : gmap (list N) pystr) : exc envelope :=
  match getitem headers (lit "User-Agent") with
  | Err ex => Err ex
  | Ok ua =>
      match getitem headers (lit "X-Forwarded-For") with
      | Err ex => Err ex
      | Ok addr =>
          Ok (Envelope (lit "error") (Some (exn_str e))
                (SearchParameters query (lit "brave") (lit "id") (lit "id-id")
                   (lit "search") (TsStr (isoformat (now_built w)))
                   (latency w))
                [] (DebugInfo ua addr 0))
      end
  end.

Definition success_envelope (w : world) (query : pystr)
    (organic_results : list search_result) (headers : gmap (list N) pystr)
  : exc envelope :=
  match getitem headers (lit "User-Agent") with
  | Err ex => Err ex
  | Ok ua =>
      match getitem headers (lit "X-Forwarded-For") with
      | Err ex => Err ex
      | Ok addr =>
          Ok (Envelope (lit "success") None
                (SearchParameters query (lit "brave") (lit "id") (lit "id-id")
                   (lit "search") (TsDatetime (now_built w)) (latency w))
                organic_results
                (DebugInfo ua addr (Z.of_nat (length organic_results))))
      end
  end.

(** [brave_search(query, limit, filter_domain)]; the result is the reference
    of the envelope returned. *)
Definition brave_search (rt : runtime) (w : world) (query : pystr)
    (limit : Z) (filter_domain : option pystr) : M nat :=
  let cache_key := get_cache_key rt query in
  cached_result <- load_from_cache rt w cache_key ;;
  match cached_result with
  | Some cached => ret cached
  | None =>
      let headers := generate_headers w in
      encoded_query <- lift (quote query) ;;
      let url := lit "https://search.brave.com/search?q=" ++ encoded_query in
      attempt <- try_except
                   (response <- fetch_search_page w url headers ;;
                    soup <- lift (html_parser rt (text response)) ;;
                    ret (inl soup))
                   (fun e => ret (inr e)) ;;
      match attempt with
      | inr e =>
          env <- lift (error_envelope w query e headers) ;;
          alloc env
      | inl soup =>
          organic_results <- lift (extract soup limit filter_domain) ;;
          env <- lift (success_envelope w query organic_results headers) ;;
          result_data <- alloc env ;;
          _ <- save_to_cache w cache_key result_data ;;
          ret result_data
      end
  end.

End UpgradeScraper.

(** ** readle.py *)

Module Readle.

Record article := Article {
  title : pystr;
  content : pystr;
  source : pystr;
  domain : pystr }.

(** What one call of [scrape_manual] reads from outside: the answer of
    [requests.get]. *)
Record world := World {
  requests_get : pystr -> exc response }.

Definition and_then {A B} (r : exc A) (k : A -> exc B) : exc B :=
  match r with
  | Ok a => k a
  | Err e => Err e
  end.

Notation "x <- r ;; k" := (and_then r (fun x => k))
  (at level 100, r at next level, right associativity).

Definition clean_text (text : pystr) : pystr :=
  join (lit " ") (split_ws (strip text)).

(** [res.raise_for_status()] of requests: the statuses from 400 to 599
    raise. *)
Definition raise_for_status (r : response) : exc unit :=
  if (400 <=? status_code r) && (status_code r <? 600)
  then Err (status_error r)
  else Ok tt.

(** The container the text is read from: the first [article], else the
    first [main], else [soup.body]. *)
Definition container (soup : node) : option node :=
  match find (named [lit "article"]) soup with
  | Some a => Some a
  | None =>
      match find (named [lit "main"]) soup with
      | Some m => Some m
      | None => find (named [lit "body"]) soup
      end
  end.

(** [soup.title.string.strip() if soup.title else "(no title)"] *)
Definition page_title (soup : node) : exc pystr :=
  match find (named [lit "title"]) soup with
  | Some t =>
      match string_of t with
      | Some s => Ok (strip s)
      | None =>
          Err (Exn AttributeError
                 (lit "'NoneType' object has no attribute 'strip'"))
      end
  | None => Ok (lit "(no title)")
  end.

(** [article.find_all(["p", "h2", "h3"])] *)
Definition paragraphs_of (art : option node) : exc (list node) :=
  match art with
  | Some a => Ok (find_all (named [lit "p"; lit "h2"; lit "h3"]) a)
  | None =>
      Err (Exn AttributeError
             (lit "'NoneType' object has no attribute 'find_all'"))
  end.

(** The text of the paragraphs and headings that are not blank, each
    cleaned, one on a line. *)
Definition content_of (paragraphs : list node) : pystr :=
  join [10%N]
       (map (fun p => clean_text (get_text [] false p))
            (List.filter (fun p => truthy (strip (get_text [] false p)))
                         paragraphs)).

Definition scrape_manual (rt : runtime) (w : world) (url : pystr)
  : exc article :=
  res <- requests_get w url ;;
  _ <- raise_for_status res ;;
  soup <- html_parser rt (text res) ;;
  let art := container soup in
  title <- page_title soup ;;
  paragraphs <- paragraphs_of art ;;
  let content := content_of paragraphs in
  netloc <- urlparse_netloc rt url ;;
  Ok (Article title content url netloc).

End Readle.

(** ** The words of the specification *)

Module Spec.

Import UpgradeScraper.

(** The time a stored timestamp stands for, when it stands for one: a
    [datetime], or a string that [fromisoformat] reads as a naive
    [datetime]. *)
Definition timestamp_of (rt : runtime) (t : timestamp) : option datetime :=
  match t with
  | TsDatetime d => Some d
  | TsStr s =>
      match fromisoformat rt s with
      | Some (Naive d) => Some d
      | _ => None
      end
  | TsMissing | TsOther => None
  end.

(** The entry a lookup gives at time [now]: the file is there, unpickles to
    an envelope, its timestamp stands for a time, and less than 24 hours
    have passed since. *)
Definition fresh_entry (rt : runtime) (now : datetime) (f : option file)
  : option envelope :=
  match f with
  | Some (Pickled (PyEnvelope e)) =>
      match timestamp_of rt (fetched_at (searchParameters e)) with
      | Some d => if sub_us now d <? day_us then Some e else None
      | None => None
      end
  | _ => None
  end.

Definition set_position (n : Z) (r : search_result) : search_result :=
  SearchResult n (title r) (link r) (snippet r) (domain r) (date r).

(** The record a candidate gives when it is accepted, its position left
    aside: [None] for a candidate that is discarded. *)
Definition accept (filter_domain : option pystr) (item : node)
  : option search_result :=
  match scan_item filter_domain 0 item with
  | Ok (Some r) => Some r
  | _ => None
  end.

(** The records numbered from [k + 1] on. *)
Fixpoint numbered (k : nat) (rs : list search_result) : list search_result :=
  match rs with
  | [] => []
  | r :: rs' => set_position (Z.of_nat k + 1) r :: numbered (S k) rs'
  end.

(** The results of the specification: the first [limit] candidates that are
    accepted, in the order of the page, numbered from 1. *)
Definition first_accepted (limit : Z) (filter_domain : option pystr)
    (items : list node) : list search_result :=
  numbered 0 (take (Z.to_nat limit) (omap (accept filter_domain) items)).

(** Positions count from 1 in the order of the list. *)
Definition positions_ok (rs : list search_result) : Prop :=
  forall (i : nat) (r : search_result),
    rs !! i = Some r -> position r = Z.of_nat i + 1.

(** The two shapes of an envelope. *)
Definition envelope_ok (e : envelope) : Prop :=
  result_count (debug e) = Z.of_nat (length (organic_results e))
  /\ positions_ok (organic_results e)
  /\ (status e = lit "success" /\ message e = None
      \/ status e = lit "error" /\ is_Some (message e)
         /\ organic_results e = []).

(** Every envelope pickled in the cache directory has one of the two
    shapes: the files are those [brave_search] wrote. *)
Definition cache_ok (σ : state) : Prop :=
  forall (path : pystr) (e : envelope),
    files σ !! path = Some (Pickled (PyEnvelope e)) -> envelope_ok e.

(** The URL requested for a query whose quoted form is [encoded]. *)
Definition search_url (encoded : pystr) : pystr :=
  lit "https://search.brave.com/search?q=" ++ encoded.

(** The outcome of the fetch: the response, or the failure of the transport
    or of the status. *)
Definition fetch_result (w : world) (url : pystr) : exc response :=
  match client_get w url (generate_headers w) with
  | Ok r =>
      if (200 <=? status_code r) && (status_code r <=? 299) then Ok r
      else Err (status_error r)
  | Err e => Err e
  end.

(** The outcome of the fetch and of the parse that follows. *)
Definition page_result (rt : runtime) (w : world) (url : pystr) : exc node :=
  match fetch_result w url with
  | Ok r => html_parser rt (text r)
  | Err e => Err e
  end.

(** The error envelope of the specification. *)
Definition error_payload (w : world) (q : pystr) (e : exn) : envelope :=
  Envelope (lit "error") (Some (exn_str e))
    (SearchParameters q (lit "brave") (lit "id") (lit "id-id") (lit "search")
       (TsStr (isoformat (now_built w)))
       (Z.quot (time_built w - time_start w) 1000))
    [] (DebugInfo (faker_user_agent w) (faker_ipv4_public w) 0).

(** The success envelope, as the caller and the cache file have it: the
    time of the fetch is the ISO string. *)
Definition success_payload (w : world) (q : pystr) (rs : list search_result)
  : envelope :=
  Envelope (lit "success") None
    (SearchParameters q (lit "brave") (lit "id") (lit "id-id") (lit "search")
       (TsStr (isoformat (now_built w)))
       (Z.quot (time_built w - time_start w) 1000))
    rs (DebugInfo (faker_user_agent w) (faker_ipv4_public w)
                  (Z.of_nat (length rs))).

(** The cache directory after the attempt to store [e] under [path]. *)
Definition files_after_save (w : world) (path : pystr) (e : envelope)
    (fs : gmap (list N) file) : gmap (list N) file :=
  match disk w with
  | WriteOk => <[path := Pickled (PyEnvelope e)]> fs
  | OpenFails _ => fs
  | DumpFails _ => <[path := Garbage]> fs
  end.

(** A surrogate code point, which UTF-8 cannot encode. *)
Definition surrogate (c : N) : bool := ((55296 <=? c) && (c <=? 57343))%N.

(** Every envelope pickled in the cache directory is a success envelope
    whose time of fetch is a string. *)
Definition stored_success (σ : state) : Prop :=
  forall (path : pystr) (e : envelope),
    files σ !! path = Some (Pickled (PyEnvelope e)) ->
    status e = lit "success" /\ message e = None
    /\ exists s, fetched_at (searchParameters e) = TsStr s.

(** The lines of the content of a page: the cleaned texts of the
    paragraphs and headings that are not blank. *)
Definition content_lines (paragraphs : list node) : list pystr :=
  map (fun p => Readle.clean_text (get_text [] false p))
      (List.filter (fun p => truthy (strip (get_text [] false p)))
                   paragraphs).

(** The same call with another fate of the write to the cache file. *)
Definition with_disk (d : disk_outcome) (w : world) : world :=
  World (now_load w) (faker_user_agent w) (faker_ipv4_public w)
        (time_start w) (client_get w) (now_built w) (time_built w) d.

(** A text is normalized when it is a sequence of words, not empty and free
    of white space, with one space between two words. *)
Definition normalized (s : pystr) : Prop :=
  exists words : list pystr,
    s = join (lit " ") words
    /\ Forall (fun w => w <> [] /\ forallb (fun c => negb (isspace c)) w = true)
              words.

End Spec.

(** ** A runtime and pages to run the programs on *)

Module Fixtures.

Import UpgradeScraper.

(** Reads [k] decimal digits. *)
Fixpoint read_digits (k : nat) (acc : Z) (s : pystr) : option (Z * pystr) :=
  match k with
  | O => Some (acc, s)
  | S k' =>
      match s with
      | c :: s' =>
          if ((48 <=? c) && (c <=? 57))%N
          then read_digits k' (acc * 10 + (Z.of_N c - 48)) s'
          else None
      | [] => None
      end
  end.

Definition expect (c : N) (s : pystr) : option pystr :=
  match s with
  | c' :: s' => if (c =? c')%N then Some s' else None
  | [] => None
  end.

(** The end of an ISO string after the seconds: nothing, or [.ffffff]. *)
Definition read_fraction (s : pystr) : option Z :=
  match s with
  | [] => Some 0
  | _ =>
      s ← expect 46 s;
      '(us, s) ← read_digits 6 0 s;
      match s with [] => Some us | _ => None end
  end.

(** A parser of the strings [isoformat] writes for a naive [datetime]; it
    is the [fromisoformat] of the runtimes below. *)
Definition iso_parse (s : pystr) : option iso_result :=
  '(y, s) ← read_digits 4 0 s;
  s ← expect 45 s;
  '(mo, s) ← read_digits 2 0 s;
  s ← expect 45 s;
  '(d, s) ← read_digits 2 0 s;
  s ← expect 84 s;
  '(h, s) ← read_digits 2 0 s;
  s ← expect 58 s;
  '(mi, s) ← read_digits 2 0 s;
  s ← expect 58 s;
  '(sec, s) ← read_digits 2 0 s;
  us ← read_fraction s;
  let dt := Datetime y mo d h mi sec us in
  if valid_datetime dt then Some (Naive dt) else None.

(** The host part of an absolute URL, for the runtimes below. *)
Definition host_of (url : pystr) : exc pystr :=
  match split_on 47 url !! 2%nat with
  | Some h => Ok h
  | None => Ok []
  end.

(** A runtime whose parser of HTML gives the tree [page] for every text. *)
Definition runtime_of (seed : Z) (page : node) : runtime :=
  Runtime (secret_of_hashseed seed) iso_parse (fun _ => Ok page) host_of.

Local Open Scope string_scope.

Definition div (classes : list string) (children : list node) : node :=
  Elem (lit "div") (map lit classes) None children.

Definition anchor (url : string) (children : list node) : node :=
  Elem (lit "a") [] (Some (lit url)) children.

Definition span (classes : list string) (children : list node) : node :=
  Elem (lit "span") (map lit classes) None children.

Definition tag (name : string) (children : list node) : node :=
  Elem (lit name) [] None children.

Definition txt (s : string) : node := Text (lit s).

(** A result block with a title, a description and an age. *)
Definition block (url title_text description age : string) : node :=
  div ["snippet"]
    [anchor url [div ["title"] [txt title_text]];
     div ["snippet-description"] [txt description];
     span ["age"] [txt age]].

(** A page with three blocks that qualify, one decoration whose text is too
    short, and one block whose link is relative. *)
Definition sample_page : node :=
  Elem (lit "[document]") [] None
    [tag "html"
       [tag "body"
          [block "https://example.org/bread" "Sourdough bread"
                 "A long enough description of a sourdough bread recipe."
                 "2 days ago";
           div ["card"] [anchor "https://example.org/x" [txt "ad"]];
           block "http://bakery.example.com/starter" "Starter guide"
                 "How to feed and keep a starter alive for years and years."
                 "";
           block "/relative/path" "Relative link"
                 "This block has a link that is not an absolute http URL."
                 "1 week ago";
           block "https://en.wikipedia.org/wiki/Sourdough" "Sourdough"
                 "Sourdough is a bread made by the fermentation of dough."
                 "3 hours ago"]]].

Definition sample_response : response :=
  Response 200 (lit "<html>...</html>")
           (Exn HTTPError (lit "Client error '404 Not Found'")).

Definition noon : datetime := Datetime 2024 2 29 12 0 0 250000.

(** A call at noon whose request is answered by [r] and whose write to the
    cache ends as [d]. *)
Definition world_of (now : datetime) (r : exc response)
    (d : disk_outcome) : world :=
  World now (lit "Mozilla/5.0 (X11; Linux x86_64)")
    (lit "203.0.113.7") 1000000 (fun _ _ => r) now 1250999 d.

Definition empty_state : state := State [] ∅ [].

Definition timeout_error : exn := Exn HTTPError (lit "timed out").

Definition query0 : pystr := lit "sourdough bread recipe".

Definition encoded0 : pystr := lit "sourdough%20bread%20recipe".

Definition rt0 : runtime := runtime_of 0 sample_page.

Definition w_ok : world :=
  world_of noon (Ok sample_response) WriteOk.


(** 23 hours after [noon], and 25 hours after it. *)
Definition next_morning : datetime := Datetime 2024 3 1 11 0 0 250000.

Definition next_afternoon : datetime := Datetime 2024 3 1 13 0 0 250000.

Definition w_next : world :=
  world_of next_morning (Err timeout_error) WriteOk.

Definition w_expired : world :=
  world_of next_afternoon (Err timeout_error) WriteOk.

(** The state after a first search at noon on an empty cache directory, and
    the envelope that search returns. *)
Definition state1 : state :=
  snd (brave_search rt0 w_ok query0 5 None empty_state).

Definition results1 : list search_result :=
  match extract sample_page 5 None with
  | Ok rs => rs
  | Err _ => []
  end.

Definition payload1 : envelope := Spec.success_payload w_ok query0 results1.

(** An envelope whose timestamp is still the [datetime] object. *)
Definition raw_envelope : envelope :=
  Envelope (lit "success") None
    (SearchParameters query0 (lit "brave") (lit "id") (lit "id-id")
       (lit "search") (TsDatetime noon) 250)
    results1
    (DebugInfo (lit "Mozilla/5.0 (X11; Linux x86_64)") (lit "203.0.113.7") 3).

(** A page with eight blocks that qualify. *)
Definition numbered_block (n : string) : node :=
  block ("https://example.org/" ++ n) ("Result number " ++ n)
        ("The description of result number " ++ n ++ " is long enough.") "".

Definition eight_page : node :=
  Elem (lit "[document]") [] None
    (map numbered_block ["1"; "2"; "3"; "4"; "5"; "6"; "7"; "8"]).

(** A page for the reader: a [main] and, after it, an [article]. *)
Definition reader_page : node :=
  Elem (lit "[document]") [] None
    [tag "html"
       [tag "head" [tag "title" [txt "  Bread  "]];
        tag "body"
          [tag "main" [tag "p" [txt "outside the article"]];
           tag "article"
             [tag "h2" [txt " A   heading "];
              tag "p" [txt "First paragraph, "; tag "b" [txt "in  bold"]];
              tag "p" [txt "   "];
              tag "h1" [txt "not read"]]]]].

(** What [html.parser] makes of [<p>hello</p>]: there is no [body]. *)
Definition bare_page : node :=
  Elem (lit "[document]") [] None [tag "p" [txt "hello"]].

(** A page whose title is empty. *)
Definition untitled_page : node :=
  Elem (lit "[document]") [] None
    [tag "html" [tag "head" [tag "title" []];
                 tag "body" [tag "p" [txt "hello"]]]].

(** A call at the time of [w_next] with another network and another fate
    of the write. *)
Definition w_next_other : world :=
  World next_morning (lit "curl/8.0") (lit "198.51.100.9") 5 (fun _ _ =>
    Ok sample_response) next_morning 9
    (DumpFails (Exn OSError (lit "No space left on device"))).

Definition rt1 : runtime := runtime_of 1 sample_page.



(** A page with an [article] and an empty [title]. *)
Definition empty_title_page : node :=
  Elem (lit "[document]") [] None
    [tag "html"
       [tag "head" [tag "title" []];
        tag "body" [tag "article" [tag "p" [txt "Some text."]]]]].

Definition reader_url : pystr := lit "https://example.org/bread".

Definition reader_world : Readle.world :=
  Readle.World (fun _ => Ok sample_response).

Definition reader_rt : runtime := runtime_of 0 reader_page.

End Fixtures.

Import UpgradeScraper Spec Fixtures.

(** * Properties *)

(** ** Strings *)

Lemma startswith_app (s p : pystr) :
  startswith s p = true -> exists rest, s = p ++ rest.
Proof.
  revert s. induction p as [|a p IH]; intros s H.
  - exists s. reflexivity.
  - destruct s as [|b s]; simpl in H; [discriminate|].
    apply andb_prop in H as [Hab Hs].
    apply N.eqb_eq in Hab. subst b.
    destruct (IH s Hs) as [rest ->]. exists rest. reflexivity.
Qed.

Lemma split_on_aux_nonempty (sep : N) (cur s : pystr) :
  split_on_aux sep cur s <> [].
Proof.
  revert cur. induction s as [|c s IH]; intros cur; simpl.
  - discriminate.
  - destruct (c =? sep)%N; [discriminate | apply IH].
Qed.

(** An absolute http or https URL has at least three pieces between its
    slashes, so the piece of index 2 is there. *)
Lemma split_http_has_host (url : pystr) :
  is_http url = true -> exists h, split_on 47 url !! 2%nat = Some h.
Proof.
  unfold is_http. intros H. apply orb_prop in H as [H|H];
    apply startswith_app in H as [rest ->]; unfold split_on; simpl;
    (destruct (split_on_aux 47 [] rest) as [|h t] eqn:E;
     [exfalso; exact (split_on_aux_nonempty _ _ _ E) | exists h; reflexivity]).
Qed.

Lemma split_ws_aux_words (cur s : pystr) :
  forallb (fun c => negb (isspace c)) cur = true ->
  Forall (fun w => w <> [] /\ forallb (fun c => negb (isspace c)) w = true)
         (split_ws_aux cur s).
Proof.
  revert cur. induction s as [|c s IH]; intros cur Hcur; simpl.
  - destruct cur as [|x cur]; [constructor|].
    constructor; [|constructor]. split.
    + intros E. apply (f_equal (@length N)) in E.
      rewrite length_rev in E. discriminate.
    + rewrite forallb_forall in *. intros y Hy.
      apply Hcur. apply in_rev. exact Hy.
  - destruct (isspace c) eqn:Hc.
    + destruct cur as [|x cur]; [apply IH; reflexivity|].
      constructor; [|apply IH; reflexivity]. split.
      * intros E. apply (f_equal (@length N)) in E.
        rewrite length_rev in E. discriminate.
      * rewrite forallb_forall in *. intros y Hy.
        apply Hcur. apply in_rev. exact Hy.
    + apply IH. simpl. rewrite Hc. exact Hcur.
Qed.

Lemma join_split_ws_normalized (s : pystr) :
  normalized (join (lit " ") (split_ws s)).
Proof.
  exists (split_ws s). split; [reflexivity|].
  apply split_ws_aux_words. reflexivity.
Qed.

Lemma clean_text_normalized (s : pystr) : normalized (clean_text s).
Proof.
  unfold clean_text. destruct (truthy s).
  - apply join_split_ws_normalized.
  - exists []. split; [reflexivity | constructor].
Qed.

Lemma lit_inj (s t : string) : lit s = lit t -> s = t.
Proof.
  unfold lit. intros H.
  rewrite <- (string_of_list_ascii_of_string s),
          <- (string_of_list_ascii_of_string t).
  f_equal. revert H.
  generalize (list_ascii_of_string s) (list_ascii_of_string t).
  induction l as [|x l IH]; intros [|y l'] H; simpl in H;
    try discriminate; [reflexivity|].
  injection H as Hxy Hl. f_equal; [|apply IH, Hl].
  rewrite <- (ascii_N_embedding x), <- (ascii_N_embedding y), Hxy.
  reflexivity.
Qed.

Lemma to_int_proper (n : Z) :
  Z.to_int n <> Decimal.Pos Decimal.Nil
  /\ Z.to_int n <> Decimal.Neg Decimal.Nil.
Proof.
  destruct n as [|p|p]; simpl; split; try discriminate;
    intros H; injection H as H;
    exact (DecimalPos.Unsigned.to_uint_nonnil p H).
Qed.

(** [str] tells two integers apart. *)
Lemma str_of_int_inj (n m : Z) : str_of_int n = str_of_int m -> n = m.
Proof.
  unfold str_of_int. intros H. apply lit_inj in H.
  apply (f_equal NilZero.int_of_string) in H.
  destruct (to_int_proper n) as [Hn1 Hn2], (to_int_proper m) as [Hm1 Hm2].
  rewrite !NilZero.isi in H by assumption.
  injection H as H. apply DecimalZ.to_int_inj, H.
Qed.

(** ** The parser of the sample runtimes *)

Lemma read_digits_digits (k : nat) (acc n : Z) (rest : pystr) :
  0 <= n ->
  read_digits k acc (digits k n ++ rest)
  = Some (acc * 10 ^ Z.of_nat k + n mod 10 ^ Z.of_nat k, rest).
Proof.
  intros Hn. revert acc. induction k as [|k IH]; intros acc.
  - simpl. rewrite Z.mod_1_r. f_equal. f_equal. lia.
  - cbn [digits read_digits app].
    set (m := (n / 10 ^ Z.of_nat k) mod 10).
    assert (Hm : 0 <= m < 10) by (apply Z.mod_pos_bound; lia).
    replace ((48 <=? Z.to_N (48 + m)) && (Z.to_N (48 + m) <=? 57))%N
      with true
      by (symmetry; apply andb_true_intro; split; apply N.leb_le; lia).
    rewrite IH. f_equal. f_equal.
    rewrite Z2N.id by lia.
    rewrite Nat2Z.inj_succ, Z.pow_succ_r by lia.
    rewrite (Z.mul_comm 10 (10 ^ Z.of_nat k)).
    rewrite Z.rem_mul_r by lia. fold m. ring.
Qed.

Lemma read_field (k : nat) (n : Z) (rest : pystr) :
  0 <= n < 10 ^ Z.of_nat k ->
  read_digits k 0 (digits k n ++ rest) = Some (n, rest).
Proof.
  intros Hn. rewrite read_digits_digits by lia.
  rewrite Z.mod_small by lia. reflexivity.
Qed.

(** [iso_parse] reads back what [isoformat] writes for a [datetime] the
    constructor accepts, as the documentation of [fromisoformat]
    promises. *)
Lemma iso_parse_isoformat (d : datetime) :
  valid_datetime d = true -> iso_parse (isoformat d) = Some (Naive d).
Proof.
  intros Hv. pose proof Hv as Hv'.
  unfold valid_datetime in Hv'.
  repeat (apply andb_prop in Hv' as [Hv' ?]).
  repeat match goal with
         | H : (_ <=? _) = true |- _ => apply Z.leb_le in H
         end.
  assert (Hd : day d <= 31).
  { unfold days_in_month in *.
    repeat match goal with
           | H : context [if ?c then _ else _] |- _ => destruct c
           end; lia. }
  destruct d as [y mo dd h mi s us].
  cbn [year month day hour minute second microsecond] in *.
  unfold iso_parse, isoformat.
  cbn [year month day hour minute second microsecond].
  change (lit "-") with [45%N]. change (lit "T") with [84%N].
  change (lit ":") with [58%N]. change (lit ".") with [46%N].
  do 6 (rewrite read_field by (cbn; lia);
        cbn [mbind option_bind expect app N.eqb Pos.eqb]).
  assert (Hf : read_fraction (if us =? 0 then [] else 46%N :: digits 6 us)
               = Some us).
  { destruct (us =? 0) eqn:E.
    - apply Z.eqb_eq in E. subst us. reflexivity.
    - unfold read_fraction. cbn [expect N.eqb Pos.eqb mbind option_bind].
      rewrite <- (app_nil_r (digits 6 us)).
      rewrite read_field by (cbn; lia). reflexivity. }
  rewrite Hf. cbn [mbind option_bind]. rewrite Hv. reflexivity.
Qed.

(** ** The parsed page *)

Lemma find_holds (p : node -> bool) (n x : node) :
  find p n = Some x -> p x = true.
Proof.
  unfold find, find_all. intros H.
  destruct (List.filter p (descendants n)) as [|y l] eqn:E; [discriminate|].
  simpl in H. injection H as ->.
  assert (HIn : In x (List.filter p (descendants n))) by (rewrite E; left; reflexivity).
  apply filter_In in HIn. tauto.
Qed.

Lemma getitem_href_link (a_tag : node) :
  is_link a_tag = true -> exists h, getitem_href a_tag = Ok h.
Proof.
  unfold is_link. intros H. apply andb_prop in H as [_ H].
  destruct a_tag as [s|nm cl [h|] cs]; simpl in H; try discriminate.
  exists h. reflexivity.
Qed.

(** ** The extraction loop *)

(** One turn of the loop never raises: the link found has its [href], and the
    URL kept starts with a scheme and two slashes. *)
Lemma scan_item_total (fd : option pystr) (count : nat) (item : node) :
  exists r, scan_item fd count item = Ok r.
Proof.
  unfold scan_item.
  destruct (find is_link item) as [a_tag|] eqn:Ha; [|eauto].
  apply find_holds in Ha. destruct (getitem_href_link _ Ha) as [url ->].
  destruct (is_http url) eqn:Hu; simpl; [|eauto].
  destruct (match fd with
            | Some d => truthy d && negb (contains d url)
            | None => false
            end); [eauto|].
  match goal with |- context [if ?c then _ else _] => destruct c end; [eauto|].
  destruct (split_http_has_host _ Hu) as [h Hh].
  unfold index. rewrite Hh. eauto.
Qed.

Lemma scan_item_position (fd : option pystr) (count : nat) (item : node)
    (r : search_result) :
  scan_item fd count item = Ok (Some r) -> position r = Z.of_nat count + 1.
Proof.
  unfold scan_item. intros H.
  repeat match type of H with
         | match ?x with _ => _ end = _ => destruct x; try discriminate
         | (if ?c then _ else _) = _ => destruct c; try discriminate
         end.
  injection H as <-. reflexivity.
Qed.

Lemma scan_total (limit : Z) (fd : option pystr) (items : list node)
    (acc : list search_result) :
  exists rs, scan limit fd items acc = Ok rs.
Proof.
  revert acc. induction items as [|item rest IH]; intros acc; simpl; [eauto|].
  destruct (Z.of_nat (length acc) >=? limit); [eauto|].
  destruct (scan_item_total fd (length acc) item) as [[r|] ->]; apply IH.
Qed.

Lemma positions_ok_snoc (acc : list search_result) (r : search_result) :
  positions_ok acc -> position r = Z.of_nat (length acc) + 1 ->
  positions_ok (acc ++ [r]).
Proof.
  intros Hacc Hr i x Hx.
  destruct (decide (i < length acc)%nat) as [Hlt|Hge].
  - rewrite lookup_app_l in Hx by exact Hlt. apply Hacc, Hx.
  - rewrite lookup_app_r in Hx by lia.
    destruct (i - length acc)%nat as [|k] eqn:E; simpl in Hx; [|discriminate].
    injection Hx as <-. rewrite Hr. f_equal. lia.
Qed.

(** The loop keeps the positions in step with the list. *)
Lemma scan_positions (limit : Z) (fd : option pystr) (items : list node)
    (acc rs : list search_result) :
  positions_ok acc -> scan limit fd items acc = Ok rs -> positions_ok rs.
Proof.
  revert acc. induction items as [|item rest IH]; intros acc Hacc H;
    simpl in H.
  - injection H as <-. exact Hacc.
  - destruct (Z.of_nat (length acc) >=? limit).
    + injection H as <-. exact Hacc.
    + destruct (scan_item fd (length acc) item) as [[r|]|e] eqn:E;
        [| eapply IH; eassumption | discriminate].
      eapply IH; [|exact H].
      apply positions_ok_snoc; [exact Hacc|].
      eapply scan_item_position, E.
Qed.

(** The loop stops at the limit: it never makes the list longer than the
    larger of its length at the start and the limit. *)
Lemma scan_length (limit : Z) (fd : option pystr) (items : list node)
    (acc rs : list search_result) :
  scan limit fd items acc = Ok rs ->
  Z.of_nat (length rs) <= Z.max (Z.of_nat (length acc)) limit.
Proof.
  revert acc. induction items as [|item rest IH]; intros acc H; simpl in H.
  - injection H as <-. lia.
  - destruct (Z.of_nat (length acc) >=? limit) eqn:Hl.
    + injection H as <-. lia.
    + destruct (scan_item fd (length acc) item) as [[r|]|e] eqn:E;
        [| eapply IH; eassumption | discriminate].
      apply IH in H. rewrite length_app in H. simpl in H.
      assert (Z.of_nat (length acc) < limit) by lia. lia.
Qed.

(** The count of the results so far only sets the position of the
    record. *)
Lemma scan_item_count (fd : option pystr) (count : nat) (item : node) :
  scan_item fd count item =
  match scan_item fd 0 item with
  | Ok (Some r) => Ok (Some (set_position (Z.of_nat count + 1) r))
  | Ok None => Ok None
  | Err e => Err e
  end.
Proof.
  unfold scan_item.
  repeat match goal with
         | |- context [match ?x with _ => _ end] =>
             lazymatch x with
             | context [match _ with _ => _ end] => fail
             | _ => destruct x
             end
         end; reflexivity.
Qed.

(** The loop computes the results of the specification: it appends to the
    list the first accepted candidates, up to the limit, in the order of
    the page. *)
Lemma scan_first_accepted (limit : Z) (fd : option pystr)
    (items : list node) (acc : list search_result) :
  scan limit fd items acc =
  Ok (acc ++ numbered (length acc)
               (take (Z.to_nat (limit - Z.of_nat (length acc)))
                     (omap (accept fd) items))).
Proof.
  revert acc. induction items as [|item rest IH]; intros acc.
  - simpl. rewrite take_nil. simpl. rewrite app_nil_r. reflexivity.
  - cbn [scan]. destruct (Z.of_nat (length acc) >=? limit) eqn:Hl.
    + apply Z.geb_le in Hl.
      replace (Z.to_nat (limit - Z.of_nat (length acc))) with 0%nat by lia.
      simpl. rewrite app_nil_r. reflexivity.
    + assert (Hlt : Z.of_nat (length acc) < limit).
      { destruct (Z.geb_spec (Z.of_nat (length acc)) limit); [discriminate|lia]. }
      rewrite scan_item_count.
      change (omap (accept fd) (item :: rest))
        with (match accept fd item with
              | Some r => r :: omap (accept fd) rest
              | None => omap (accept fd) rest
              end).
      unfold accept at 1.
      destruct (scan_item_total fd 0 item) as [[r|] ->]; [|apply IH].
      rewrite IH. rewrite length_app. cbn [length].
      replace (Z.to_nat (limit - Z.of_nat (length acc)))
        with (S (Z.to_nat (limit - Z.of_nat (length acc + 1)))) by lia.
      cbn [take numbered]. rewrite <- app_assoc. cbn [app].
      replace (length acc + 1)%nat with (S (length acc)) by lia.
      reflexivity.
Qed.

Lemma extract_first_accepted (soup : node) (limit : Z) (fd : option pystr) :
  extract soup limit fd
  = Ok (first_accepted limit fd (find_all is_candidate soup)).
Proof.
  unfold extract, first_accepted. rewrite scan_first_accepted.
  simpl. rewrite Z.sub_0_r. reflexivity.
Qed.

Lemma extract_total (soup : node) (limit : Z) (fd : option pystr) :
  exists rs, extract soup limit fd = Ok rs.
Proof. apply scan_total. Qed.

Lemma positions_ok_nil : positions_ok [].
Proof. intros i r H. discriminate. Qed.

Lemma extract_positions (soup : node) (limit : Z) (fd : option pystr)
    (rs : list search_result) :
  extract soup limit fd = Ok rs -> positions_ok rs.
Proof. apply scan_positions, positions_ok_nil. Qed.

Lemma extract_length (soup : node) (limit : Z) (fd : option pystr)
    (rs : list search_result) :
  0 <= limit -> extract soup limit fd = Ok rs ->
  Z.of_nat (length rs) <= limit.
Proof.
  intros Hl H. apply scan_length in H. simpl in H. lia.
Qed.

(** ** The headers *)

Lemma headers_user_agent (w : world) :
  getitem (generate_headers w) (lit "User-Agent") = Ok (faker_user_agent w).
Proof.
  unfold getitem, generate_headers. rewrite lookup_insert_eq. reflexivity.
Qed.

Lemma headers_forwarded_for (w : world) :
  getitem (generate_headers w) (lit "X-Forwarded-For")
  = Ok (faker_ipv4_public w).
Proof.
  unfold getitem, generate_headers.
  do 4 (rewrite lookup_insert_ne by (vm_compute; discriminate)).
  rewrite lookup_insert_eq. reflexivity.
Qed.

(** ** The cache *)

Lemma is_fresh_timestamp (rt : runtime) (now : datetime) (t : timestamp) :
  match timestamp_of rt t with
  | Some d => is_fresh rt now t = Ok (sub_us now d <? day_us)
  | None => exists e, is_fresh rt now t = Err e
  end.
Proof.
  destruct t as [|s|d|]; simpl; eauto.
  destruct (fromisoformat rt s) as [[d|]|]; eauto.
Qed.

(** [load_from_cache] computes the lookup of the specification: it never
    raises, gives the fresh entry as a new object when there is one, and
    [None] otherwise, and it leaves the files and the network alone. *)
Lemma load_from_cache_eq (rt : runtime) (w : world) (key : pystr)
    (σ : state) :
  load_from_cache rt w key σ =
  match fresh_entry rt (now_load w) (files σ !! cache_file_of key) with
  | Some e =>
      (Ok (Some (length (heap σ))),
       State (heap σ ++ [e]) (files σ) (requests σ))
  | None => (Ok None, σ)
  end.
Proof.
  unfold load_from_cache, try_except, load_try, fresh_entry.
  destruct (files σ !! cache_file_of key) as [[|[e|]]|]; try reflexivity.
  unfold bind, lift, get_fetched_at.
  pose proof (is_fresh_timestamp rt (now_load w)
                (fetched_at (searchParameters e))) as Hf.
  destruct (timestamp_of rt (fetched_at (searchParameters e))) as [d|].
  - rewrite Hf. destruct (sub_us (now_load w) d <? day_us); reflexivity.
  - destruct Hf as [ex ->]. reflexivity.
Qed.

(** ** The search *)

Lemma fetch_search_page_eq (w : world) (url : pystr) (σ : state) :
  fetch_search_page w url (generate_headers w) σ
  = (fetch_result w url, State (heap σ) (files σ) (requests σ ++ [url])).
Proof.
  unfold fetch_search_page, try_except, bind, lift, raise, ret, fetch_result,
    raise_for_status.
  destruct (client_get w url (generate_headers w)) as [r|e]; [|reflexivity].
  destruct ((200 <=? status_code r) && (status_code r <=? 299)); reflexivity.
Qed.

Lemma save_to_cache_new (w : world) (key : pystr) (h : list envelope)
    (e : envelope) (d : datetime) (fs : gmap (list N) file)
    (rq : list pystr) :
  fetched_at (searchParameters e) = TsDatetime d ->
  save_to_cache w key (length h) (State (h ++ [e]) fs rq)
  = (Ok tt,
     State (h ++ [set_fetched_at (TsStr (isoformat d)) e])
           (files_after_save w (cache_file_of key)
              (set_fetched_at (TsStr (isoformat d)) e) fs)
           rq).
Proof.
  intros Hd.
  unfold save_to_cache, try_except, save_try; simpl.
  rewrite lookup_app_r by lia. rewrite Nat.sub_diag; simpl.
  unfold bind, lift, ret. rewrite Hd; simpl.
  rewrite insert_app_r_alt by lia. rewrite Nat.sub_diag; simpl.
  unfold write_pickle, files_after_save; simpl.
  destruct (disk w); reflexivity.
Qed.

(** The call on a cache hit: the stored envelope is returned as a new
    object; no request is made and no file is written. *)
Lemma brave_search_hit (rt : runtime) (w : world) (q : pystr) (limit : Z)
    (fd : option pystr) (σ : state) (e : envelope) :
  fresh_entry rt (now_load w) (files σ !! cache_file_of (get_cache_key rt q))
  = Some e ->
  brave_search rt w q limit fd σ
  = (Ok (length (heap σ)), State (heap σ ++ [e]) (files σ) (requests σ)).
Proof.
  intros H. unfold brave_search, bind.
  rewrite load_from_cache_eq, H. reflexivity.
Qed.

(** The call on a cache miss, for a query that [quote] accepts: one request
    is made; a failure gives the error envelope and leaves the files alone;
    a page gives the success envelope, which is stored. *)
Lemma brave_search_miss (rt : runtime) (w : world) (q : pystr) (limit : Z)
    (fd : option pystr) (σ : state) (enc : pystr) :
  fresh_entry rt (now_load w) (files σ !! cache_file_of (get_cache_key rt q))
  = None ->
  quote q = Ok enc ->
  brave_search rt w q limit fd σ =
  match page_result rt w (search_url enc) with
  | Err e =>
      (Ok (length (heap σ)),
       State (heap σ ++ [error_payload w q e]) (files σ)
             (requests σ ++ [search_url enc]))
  | Ok soup =>
      match extract soup limit fd with
      | Ok rs =>
          (Ok (length (heap σ)),
           State (heap σ ++ [success_payload w q rs])
                 (files_after_save w (cache_file_of (get_cache_key rt q))
                    (success_payload w q rs) (files σ))
                 (requests σ ++ [search_url enc]))
      | Err e =>
          (Err e, State (heap σ) (files σ) (requests σ ++ [search_url enc]))
      end
  end.
Proof.
  intros Hmiss Hq. unfold brave_search.
  unfold bind at 1. rewrite load_from_cache_eq, Hmiss.
  unfold bind at 1. unfold lift at 1. rewrite Hq.
  fold (search_url enc).
  unfold bind at 1. unfold try_except at 1. unfold bind at 1.
  rewrite fetch_search_page_eq. unfold page_result.
  destruct (fetch_result w (search_url enc)) as [r|e].
  - unfold bind at 1. unfold lift at 1.
    destruct (html_parser rt (text r)) as [soup|e].
    + unfold ret at 1. unfold bind at 1. unfold lift at 1.
      destruct (extract soup limit fd) as [rs|e]; [|reflexivity].
      unfold bind at 1. unfold lift at 1. unfold success_envelope.
      rewrite headers_user_agent, headers_forwarded_for.
      unfold bind at 1. unfold alloc at 1. cbn [heap files requests].
      unfold bind at 1.
      erewrite save_to_cache_new by reflexivity.
      reflexivity.
    + unfold ret at 1. unfold bind at 1. unfold lift at 1.
      unfold error_envelope.
      rewrite headers_user_agent, headers_forwarded_for.
      reflexivity.
  - unfold ret at 1. unfold bind at 1. unfold lift at 1.
    unfold error_envelope.
    rewrite headers_user_agent, headers_forwarded_for.
    reflexivity.
Qed.

Lemma envelope_ok_error (w : world) (q : pystr) (e : exn) :
  envelope_ok (error_payload w q e).
Proof.
  split; [reflexivity|]. split; [apply positions_ok_nil|].
  right. split; [reflexivity|]. split; [eexists; reflexivity | reflexivity].
Qed.

Lemma envelope_ok_success (w : world) (q : pystr) (rs : list search_result) :
  positions_ok rs -> envelope_ok (success_payload w q rs).
Proof.
  intros H. split; [reflexivity|]. split; [exact H|].
  left. split; reflexivity.
Qed.

Lemma fresh_entry_stored (rt : runtime) (now : datetime) (f : option file)
    (e : envelope) :
  fresh_entry rt now f = Some e -> f = Some (Pickled (PyEnvelope e)).
Proof.
  unfold fresh_entry. intros H.
  destruct f as [[|[e'|]]|]; try discriminate.
  destruct (timestamp_of rt (fetched_at (searchParameters e'))) as [d|];
    [|discriminate].
  destruct (sub_us now d <? day_us); [|discriminate].
  injection H as ->. reflexivity.
Qed.


Lemma cache_ok_after_save (w : world) (path : pystr) (e : envelope)
    (h h' : list envelope) (fs : gmap (list N) file) (rq rq' : list pystr) :
  envelope_ok e -> cache_ok (State h fs rq) ->
  cache_ok (State h' (files_after_save w path e fs) rq').
Proof.
  intros He Hc p x. unfold files_after_save; simpl.
  destruct (disk w); intros Hx.
  - destruct (decide (path = p)) as [->|Hne].
    + rewrite lookup_insert_eq in Hx. injection Hx as <-. exact He.
    + rewrite lookup_insert_ne in Hx by exact Hne. exact (Hc p x Hx).
  - exact (Hc p x Hx).
  - destruct (decide (path = p)) as [->|Hne].
    + rewrite lookup_insert_eq in Hx. discriminate.
    + rewrite lookup_insert_ne in Hx by exact Hne. exact (Hc p x Hx).
Qed.

Lemma lookup_snoc {A} (h : list A) (x : A) : (h ++ [x]) !! length h = Some x.
Proof. rewrite lookup_app_r by lia. rewrite Nat.sub_diag. reflexivity. Qed.

(** For a query that [quote] accepts, [brave_search] returns an envelope of
    one of the two shapes, and the files it leaves have the shapes they
    had or the one it wrote. *)
Lemma brave_search_returns (rt : runtime) (w : world) (q : pystr) (limit : Z)
    (fd : option pystr) (σ : state) (enc : pystr) :
  cache_ok σ -> quote q = Ok enc ->
  exists (l : nat) (σ' : state) (env : envelope),
    brave_search rt w q limit fd σ = (Ok l, σ')
    /\ heap σ' !! l = Some env
    /\ envelope_ok env
    /\ cache_ok σ'.
Proof.
  intros Hc Hq.
  destruct (fresh_entry rt (now_load w)
              (files σ !! cache_file_of (get_cache_key rt q)))
    as [e|] eqn:Hf.
  - rewrite (brave_search_hit _ _ _ _ _ _ _ Hf).
    eexists _, _, e. split; [reflexivity|]. simpl.
    split; [apply lookup_snoc|].
    split; [|exact Hc].
    eapply Hc. apply fresh_entry_stored in Hf. exact Hf.
  - rewrite (brave_search_miss _ _ _ _ _ _ _ Hf Hq).
    destruct (page_result rt w (search_url enc)) as [soup|e].
    + destruct (extract_total soup limit fd) as [rs Hrs]. rewrite Hrs.
      assert (Hok : envelope_ok (success_payload w q rs))
        by (apply envelope_ok_success; eapply extract_positions, Hrs).
      eexists _, _, _. split; [reflexivity|]. simpl.
      split; [apply lookup_snoc|]. split; [exact Hok|].
      destruct σ as [h fs rq]. eapply cache_ok_after_save; eassumption.
    + eexists _, _, _. split; [reflexivity|]. simpl.
      split; [apply lookup_snoc|]. split; [apply envelope_ok_error|].
      exact Hc.
Qed.

Lemma cache_ok_empty (h : list envelope) (rq : list pystr) :
  cache_ok (State h ∅ rq).
Proof. intros p e H. simpl in H. rewrite lookup_empty in H. discriminate. Qed.

Lemma load_miss_fresh_entry (rt : runtime) (w : world) (key : pystr)
    (σ : state) :
  fst (load_from_cache rt w key σ) = Ok None ->
  fresh_entry rt (now_load w) (files σ !! cache_file_of key) = None.
Proof.
  rewrite load_from_cache_eq.
  destruct (fresh_entry rt (now_load w) (files σ !! cache_file_of key));
    [discriminate | reflexivity].
Qed.

Lemma brave_search_quote_fails (rt : runtime) (w : world) (q : pystr)
    (limit : Z) (fd : option pystr) (σ : state) (e : exn) :
  fresh_entry rt (now_load w) (files σ !! cache_file_of (get_cache_key rt q))
  = None ->
  quote q = Err e ->
  brave_search rt w q limit fd σ = (Err e, σ).
Proof.
  intros Hmiss Hq. unfold brave_search.
  unfold bind at 1. rewrite load_from_cache_eq, Hmiss.
  unfold bind at 1. unfold lift at 1. rewrite Hq. reflexivity.
Qed.

(** A call that finds a fresh entry for its query returns it, whatever its
    limit and its filter. *)
Lemma second_call_hit (rt : runtime) (w : world) (q : pystr) (limit : Z)
    (fd : option pystr) (σ : state) (env : envelope) (d : datetime) :
  files σ !! cache_file_of (get_cache_key rt q)
  = Some (Pickled (PyEnvelope env)) ->
  timestamp_of rt (fetched_at (searchParameters env)) = Some d ->
  sub_us (now_load w) d < day_us ->
  brave_search rt w q limit fd σ
  = (Ok (length (heap σ)), State (heap σ ++ [env]) (files σ) (requests σ)).
Proof.
  intros Hfile Hts Hage. apply brave_search_hit.
  unfold fresh_entry. rewrite Hfile, Hts.
  apply Z.ltb_lt in Hage. rewrite Hage. reflexivity.
Qed.

Lemma timestamp_of_none (rt : runtime) (t : timestamp) :
  timestamp_of rt t = None <->
  t = TsMissing \/ t = TsOther
  \/ exists s, t = TsStr s
               /\ (fromisoformat rt s = None \/ fromisoformat rt s = Some Aware).
Proof.
  split.
  - destruct t as [|s|d|]; simpl; intros H; try discriminate; auto.
    right; right. exists s. split; [reflexivity|].
    destruct (fromisoformat rt s) as [[d|]|]; [discriminate | auto | auto].
  - intros [->|[->|[s [-> [H|H]]]]]; simpl; try reflexivity; rewrite H;
      reflexivity.
Qed.

(** ** The claims *)

(** C1 (the code departs from it).  The key of a query is the decimal text
    of [hash(query)], and [hash] is keyed by the secret of the process: for
    the query ["a"], a process started with the secret of
    [PYTHONHASHSEED=0] and one started with that of [PYTHONHASHSEED=1]
    derive different keys, so the key is not stable across restarts. *)
Theorem C1_cache_key_differs_between_processes :
  get_cache_key (runtime_of 0 sample_page) (lit "a")
  = lit "4644417185603328019"
  /\ get_cache_key (runtime_of 1 sample_page) (lit "a")
     = lit "-3012895188637184397"
  /\ get_cache_key (runtime_of 0 sample_page) (lit "a")
     <> get_cache_key (runtime_of 1 sample_page) (lit "a").
Proof.
  split; [vm_compute; reflexivity|].
  split; [vm_compute; reflexivity|].
  vm_compute. discriminate.
Qed.

(** Within one process the key is a function of the text of the query
    alone. *)
Lemma get_cache_key_same_process (rt1 rt2 : runtime) (q : pystr) :
  secret rt1 = secret rt2 -> get_cache_key rt1 q = get_cache_key rt2 q.
Proof. unfold get_cache_key. intros ->. reflexivity. Qed.

(** Two processes derive the same key for a query exactly when their
    secrets give it the same hash. *)
Lemma get_cache_key_eq_iff (rt1 rt2 : runtime) (q : pystr) :
  get_cache_key rt1 q = get_cache_key rt2 q
  <-> hash (secret rt1) q = hash (secret rt2) q.
Proof.
  unfold get_cache_key. split; [apply str_of_int_inj | intros ->; reflexivity].
Qed.

(** C2 (the code departs from it).  [quote(query)] is called outside every
    [try]: for the query made of the lone surrogate U+D800 and an empty
    cache directory, [brave_search] raises [UnicodeEncodeError] to its
    caller, whatever the limit, the filter and the network. *)
Theorem C2_brave_search_raises_on_lone_surrogate
    (rt : runtime) (w : world) (limit : Z) (fd : option pystr)
    (h : list envelope) (rq : list pystr) :
  brave_search rt w [55296%N] limit fd (State h ∅ rq)
  = (Err (Exn UnicodeEncodeError (lit "surrogates not allowed")),
     State h ∅ rq).
Proof.
  apply brave_search_quote_fails; [|reflexivity].
  simpl. rewrite lookup_empty. reflexivity.
Qed.


(** C4.  When a call misses the cache, builds a success envelope and the
    write to the cache file succeeds, the file holds the envelope returned;
    a second call for the same query in the same process, less than 24
    hours after the time of the fetch, returns an equal envelope, makes no
    request and writes no file. *)
Theorem C4_cache_hit_idempotence
    (rt : runtime) (w1 w2 : world) (q : pystr) (limit1 limit2 : Z)
    (fd1 fd2 : option pystr) (σ0 σ1 : state) (r1 : nat) (env : envelope) :
  fst (load_from_cache rt w1 (get_cache_key rt q) σ0) = Ok None ->
  brave_search rt w1 q limit1 fd1 σ0 = (Ok r1, σ1) ->
  heap σ1 !! r1 = Some env ->
  status env = lit "success" ->
  disk w1 = WriteOk ->
  fromisoformat rt (isoformat (now_built w1)) = Some (Naive (now_built w1)) ->
  sub_us (now_load w2) (now_built w1) < day_us ->
  files σ1 !! cache_file_of (get_cache_key rt q)
  = Some (Pickled (PyEnvelope env))
  /\ exists (r2 : nat) (σ2 : state),
       brave_search rt w2 q limit2 fd2 σ1 = (Ok r2, σ2)
       /\ heap σ2 !! r2 = Some env
       /\ requests σ2 = requests σ1
       /\ files σ2 = files σ1.
Proof.
  intros Hmiss Hcall Hheap Hstatus Hdisk Hiso Hage.
  apply load_miss_fresh_entry in Hmiss.
  destruct (quote q) as [enc|e] eqn:Hq;
    [|rewrite (brave_search_quote_fails _ _ _ _ _ _ _ Hmiss Hq) in Hcall;
      discriminate].
  rewrite (brave_search_miss _ _ _ _ _ _ _ Hmiss Hq) in Hcall.
  destruct (page_result rt w1 (search_url enc)) as [soup|e].
  - destruct (extract soup limit1 fd1) as [rs|e]; [|discriminate].
    injection Hcall as <- <-. cbn [heap files requests] in *.
    rewrite lookup_snoc in Hheap. injection Hheap as <-.
    assert (Hfile :
      files_after_save w1 (cache_file_of (get_cache_key rt q))
        (success_payload w1 q rs) (files σ0)
      !! cache_file_of (get_cache_key rt q)
      = Some (Pickled (PyEnvelope (success_payload w1 q rs)))).
    { unfold files_after_save. rewrite Hdisk. apply lookup_insert_eq. }
    split; [exact Hfile|].
    erewrite second_call_hit;
      [| exact Hfile | cbn [success_payload searchParameters fetched_at
                            timestamp_of]; rewrite Hiso; reflexivity
       | exact Hage].
    eexists _, _. split; [reflexivity|]. cbn [heap files requests].
    split; [apply lookup_snoc|]. split; reflexivity.
  - injection Hcall as <- <-. cbn [heap] in Hheap.
    rewrite lookup_snoc in Hheap. injection Hheap as <-.
    vm_compute in Hstatus. discriminate.
Qed.

(** C5.  [load_from_cache] never raises and touches neither the files nor
    the network.  It returns [None] when the file is missing, does not
    unpickle, holds no envelope, holds one whose timestamp is missing or
    not a valid time, or one fetched 24 hours ago or more; it returns the
    stored envelope exactly when less than 24 hours have passed since its
    timestamp. *)
Theorem C5_load_from_cache_miss_or_fresh
    (rt : runtime) (w : world) (key : pystr) (σ : state) :
  (exists (r : option nat) (σ' : state),
     load_from_cache rt w key σ = (Ok r, σ')
     /\ files σ' = files σ /\ requests σ' = requests σ)
  /\ (files σ !! cache_file_of key = None
      \/ files σ !! cache_file_of key = Some Garbage
      \/ files σ !! cache_file_of key = Some (Pickled PyOther)
      \/ (exists e : envelope,
           files σ !! cache_file_of key = Some (Pickled (PyEnvelope e))
           /\ (timestamp_of rt (fetched_at (searchParameters e)) = None
               \/ exists d : datetime,
                    timestamp_of rt (fetched_at (searchParameters e)) = Some d
                    /\ day_us <= sub_us (now_load w) d)) ->
      load_from_cache rt w key σ = (Ok None, σ))
  /\ (forall (l : nat) (σ' : state),
        load_from_cache rt w key σ = (Ok (Some l), σ') ->
        exists (e : envelope) (d : datetime),
          files σ !! cache_file_of key = Some (Pickled (PyEnvelope e))
          /\ heap σ' !! l = Some e
          /\ timestamp_of rt (fetched_at (searchParameters e)) = Some d
          /\ sub_us (now_load w) d < day_us)
  /\ (forall (e : envelope) (d : datetime),
        files σ !! cache_file_of key = Some (Pickled (PyEnvelope e)) ->
        timestamp_of rt (fetched_at (searchParameters e)) = Some d ->
        sub_us (now_load w) d < day_us ->
        exists (l : nat) (σ' : state),
          load_from_cache rt w key σ = (Ok (Some l), σ')
          /\ heap σ' !! l = Some e).
Proof.
  rewrite load_from_cache_eq. unfold fresh_entry.
  split; [|split; [|split]].
  - destruct (files σ !! cache_file_of key) as [[|[e|]]|];
      try (eexists _, _; split; [reflexivity | split; reflexivity]).
    destruct (timestamp_of rt (fetched_at (searchParameters e))) as [d|];
      [destruct (sub_us (now_load w) d <? day_us)|];
      eexists _, _; (split; [reflexivity | split; reflexivity]).
  - intros [->|[->|[->|[e [-> [->|[d [-> Hold]]]]]]]]; try reflexivity.
    apply Z.ltb_ge in Hold. rewrite Hold. reflexivity.
  - intros l σ' H.
    destruct (files σ !! cache_file_of key) as [[|[e|]]|]; try discriminate.
    destruct (timestamp_of rt (fetched_at (searchParameters e))) as [d|]
      eqn:Hts; [|discriminate].
    destruct (sub_us (now_load w) d <? day_us) eqn:Hage; [|discriminate].
    injection H as <- <-. exists e, d. cbn [heap].
    split; [reflexivity|]. split; [apply lookup_snoc|].
    split; [exact Hts|]. apply Z.ltb_lt, Hage.
  - intros e d -> -> Hage. apply Z.ltb_lt in Hage. rewrite Hage.
    eexists _, _. split; [reflexivity|]. apply lookup_snoc.
Qed.

(** C6.  For a limit that is not negative, the loop over the candidates
    stops as soon as [limit] records are accepted; on any page it returns,
    and returns at most [limit] records; so a call that misses the cache
    and fetches returns an envelope with at most [limit] results, and none
    when the limit is 0. *)
Theorem C6_limit_bound
    (rt : runtime) (w : world) (q : pystr) (limit : Z) (fd : option pystr)
    (σ : state) (enc : pystr) :
  0 <= limit ->
  fst (load_from_cache rt w (get_cache_key rt q) σ) = Ok None ->
  quote q = Ok enc ->
  (forall (items : list node) (acc : list search_result),
     limit <= Z.of_nat (length acc) -> scan limit fd items acc = Ok acc)
  /\ (forall soup : node,
        exists rs, extract soup limit fd = Ok rs
                   /\ Z.of_nat (length rs) <= limit)
  /\ exists (l : nat) (σ' : state) (env : envelope),
       brave_search rt w q limit fd σ = (Ok l, σ')
       /\ heap σ' !! l = Some env
       /\ Z.of_nat (length (organic_results env)) <= limit
       /\ (limit = 0 -> organic_results env = []).
Proof.
  intros Hl Hmiss Hq. split; [|split].
  - intros items acc Hacc. destruct items as [|item rest]; [reflexivity|].
    simpl. replace (Z.of_nat (length acc) >=? limit) with true; [reflexivity|].
    symmetry. apply Z.geb_le. exact Hacc.
  - intros soup. destruct (extract_total soup limit fd) as [rs Hrs].
    exists rs. split; [exact Hrs | eapply extract_length; eassumption].
  - apply load_miss_fresh_entry in Hmiss.
    rewrite (brave_search_miss _ _ _ _ _ _ _ Hmiss Hq).
    destruct (page_result rt w (search_url enc)) as [soup|e].
    + destruct (extract_total soup limit fd) as [rs Hrs]. rewrite Hrs.
      pose proof (extract_length _ _ _ _ Hl Hrs) as Hlen.
      eexists _, _, _. split; [reflexivity|]. cbn [heap].
      split; [apply lookup_snoc|]. cbn [success_payload organic_results].
      split; [exact Hlen|].
      intros ->. destruct rs; [reflexivity | simpl in Hlen; lia].
    + eexists _, _, _. split; [reflexivity|]. cbn [heap].
      split; [apply lookup_snoc|]. cbn [error_payload organic_results].
      split; [simpl; lia | reflexivity].
Qed.

(** Whatever the query, an envelope that [brave_search] returns has one of
    the two shapes. *)
Lemma brave_search_envelope_ok (rt : runtime) (w : world) (q : pystr)
    (limit : Z) (fd : option pystr) (σ σ' : state) (l : nat)
    (env : envelope) :
  cache_ok σ ->
  brave_search rt w q limit fd σ = (Ok l, σ') ->
  heap σ' !! l = Some env ->
  envelope_ok env.
Proof.
  intros Hc Hcall Hheap.
  destruct (quote q) as [enc|e] eqn:Hq.
  - destruct (brave_search_returns rt w q limit fd σ enc Hc Hq)
      as (l0 & σ0 & env0 & Hcall0 & Hheap0 & Hok & _).
    rewrite Hcall0 in Hcall. injection Hcall as <- <-.
    rewrite Hheap0 in Hheap. injection Hheap as <-. exact Hok.
  - destruct (fresh_entry rt (now_load w)
                (files σ !! cache_file_of (get_cache_key rt q)))
      as [e0|] eqn:Hf.
    + rewrite (brave_search_hit _ _ _ _ _ _ _ Hf) in Hcall.
      injection Hcall as <- <-. cbn [heap] in Hheap.
      rewrite lookup_snoc in Hheap. injection Hheap as <-.
      eapply Hc. apply fresh_entry_stored in Hf. exact Hf.
    + rewrite (brave_search_quote_fails _ _ _ _ _ _ _ Hf Hq) in Hcall.
      discriminate.
Qed.

(** C7.  In every envelope a call returns, the position of the result of
    index [i] is [i + 1]; for an envelope that comes from the cache this
    rests on the files being those the program wrote.  A call whose query
    [quote] accepts does return an envelope.  The results read from a page
    are the first accepted candidates in the order of the page, numbered
    from 1: a discarded candidate takes no number. *)
Theorem C7_position_contract
    (rt : runtime) (w : world) (q : pystr) (limit : Z) (fd : option pystr)
    (σ : state) :
  cache_ok σ ->
  (forall (l : nat) (σ' : state) (env : envelope),
     brave_search rt w q limit fd σ = (Ok l, σ') ->
     heap σ' !! l = Some env ->
     forall (i : nat) (r : search_result),
       organic_results env !! i = Some r -> position r = Z.of_nat i + 1)
  /\ (forall enc : pystr, quote q = Ok enc ->
        exists (l : nat) (σ' : state) (env : envelope),
          brave_search rt w q limit fd σ = (Ok l, σ')
          /\ heap σ' !! l = Some env)
  /\ (forall soup : node,
        extract soup limit fd
        = Ok (numbered 0 (take (Z.to_nat limit)
                            (omap (accept fd) (find_all is_candidate soup))))).
Proof.
  intros Hc. split; [|split].
  - intros l σ' env Hcall Hheap.
    destruct (brave_search_envelope_ok _ _ _ _ _ _ _ _ _ Hc Hcall Hheap)
      as (_ & Hpos & _).
    exact Hpos.
  - intros enc Hq.
    destruct (brave_search_returns rt w q limit fd σ enc Hc Hq)
      as (l & σ' & env & Hcall & Hheap & _).
    exists l, σ', env. split; assumption.
  - intros soup. apply extract_first_accepted.
Qed.

(** C8.  In every envelope a call returns, [result_count] is the length of
    [organic_results]; the status is ["success"] or ["error"], and an
    error envelope has no results, a count of 0 and a message.  A call
    whose query [quote] accepts does return an envelope. *)
Theorem C8_result_count_is_length
    (rt : runtime) (w : world) (q : pystr) (limit : Z) (fd : option pystr)
    (σ : state) :
  cache_ok σ ->
  (forall (l : nat) (σ' : state) (env : envelope),
     brave_search rt w q limit fd σ = (Ok l, σ') ->
     heap σ' !! l = Some env ->
     result_count (debug env) = Z.of_nat (length (organic_results env))
     /\ (status env = lit "success" \/ status env = lit "error")
     /\ (status env = lit "error" ->
         organic_results env = [] /\ result_count (debug env) = 0
         /\ is_Some (message env)))
  /\ (forall enc : pystr, quote q = Ok enc ->
        exists (l : nat) (σ' : state) (env : envelope),
          brave_search rt w q limit fd σ = (Ok l, σ')
          /\ heap σ' !! l = Some env).
Proof.
  intros Hc. split.
  - intros l σ' env Hcall Hheap.
    destruct (brave_search_envelope_ok _ _ _ _ _ _ _ _ _ Hc Hcall Hheap)
      as (Hcount & _ & Hshape).
    split; [exact Hcount|].
    destruct Hshape as [[Hs Hm]|[Hs [Hm Hr]]].
    + split; [left; exact Hs|]. intros He. rewrite Hs in He.
      vm_compute in He. discriminate.
    + split; [right; exact Hs|]. intros _.
      split; [exact Hr|]. split; [|exact Hm].
      rewrite Hcount, Hr. reflexivity.
  - intros enc Hq.
    destruct (brave_search_returns rt w q limit fd σ enc Hc Hq)
      as (l & σ' & env & Hcall & Hheap & _).
    exists l, σ', env. split; assumption.
Qed.

Lemma save_to_cache_datetime (w : world) (key : pystr) (data : nat)
    (σ : state) (e : envelope) (d : datetime) :
  heap σ !! data = Some e ->
  fetched_at (searchParameters e) = TsDatetime d ->
  save_to_cache w key data σ
  = (Ok tt,
     State (<[data := set_fetched_at (TsStr (isoformat d)) e]> (heap σ))
           (files_after_save w (cache_file_of key)
              (set_fetched_at (TsStr (isoformat d)) e) (files σ))
           (requests σ)).
Proof.
  intros He Hd.
  unfold save_to_cache, try_except, save_try. rewrite He.
  unfold bind, lift, ret. rewrite Hd. cbn [isoformat_of].
  unfold write_pickle, files_after_save. cbn [disk heap files requests].
  destruct (disk w); reflexivity.
Qed.

(** When the timestamp is not a [datetime], the assignment raises inside the
    [try], and nothing changes. *)
Lemma save_to_cache_not_datetime (w : world) (key : pystr) (data : nat)
    (σ : state) (e : envelope) :
  heap σ !! data = Some e ->
  (forall d, fetched_at (searchParameters e) <> TsDatetime d) ->
  save_to_cache w key data σ = (Ok tt, σ).
Proof.
  intros He Hd.
  unfold save_to_cache, try_except, save_try. rewrite He.
  unfold bind, lift, ret.
  destruct (fetched_at (searchParameters e)) as [|s|d|]; try reflexivity.
  exfalso. exact (Hd d eq_refl).
Qed.

(** C10.  [save_to_cache] changes the object it is given: the timestamp, a
    [datetime], becomes its ISO string, no other field and no other object
    changes, and nothing is raised, however the write ends.
    [brave_search] hands the object it has built to [save_to_cache] and
    then returns it, so the envelope of a successful fetch carries the ISO
    string; when the write succeeds the file holds an equal envelope, which
    a later call within 24 hours returns. *)
Theorem C10_save_to_cache_mutates_in_place :
  (forall (w : world) (key : pystr) (data : nat) (σ : state) (e : envelope)
          (d : datetime),
     heap σ !! data = Some e ->
     fetched_at (searchParameters e) = TsDatetime d ->
     exists (σ' : state) (e' : envelope),
       save_to_cache w key data σ = (Ok tt, σ')
       /\ heap σ' !! data = Some e'
       /\ fetched_at (searchParameters e') = TsStr (isoformat d)
       /\ status e' = status e /\ message e' = message e
       /\ organic_results e' = organic_results e /\ debug e' = debug e
       /\ query (searchParameters e') = query (searchParameters e)
       /\ engine (searchParameters e') = engine (searchParameters e)
       /\ gl (searchParameters e') = gl (searchParameters e)
       /\ hl (searchParameters e') = hl (searchParameters e)
       /\ type_ (searchParameters e') = type_ (searchParameters e)
       /\ latency_ms (searchParameters e') = latency_ms (searchParameters e)
       /\ (forall l : nat, l <> data -> heap σ' !! l = heap σ !! l)
       /\ requests σ' = requests σ)
  /\ (forall (rt : runtime) (w : world) (q : pystr) (limit : Z)
             (fd : option pystr) (σ : state) (enc : pystr) (r : response)
             (soup : node),
        fst (load_from_cache rt w (get_cache_key rt q) σ) = Ok None ->
        quote q = Ok enc ->
        fst (fetch_search_page w
               (lit "https://search.brave.com/search?q=" ++ enc)
               (generate_headers w) σ) = Ok r ->
        html_parser rt (text r) = Ok soup ->
        exists (l : nat) (σ' : state) (env : envelope),
          brave_search rt w q limit fd σ = (Ok l, σ')
          /\ heap σ' !! l = Some env
          /\ status env = lit "success"
          /\ fetched_at (searchParameters env)
             = TsStr (isoformat (now_built w))
          /\ (disk w = WriteOk ->
              files σ' !! cache_file_of (get_cache_key rt q)
              = Some (Pickled (PyEnvelope env))
              /\ forall (w2 : world) (limit2 : Z) (fd2 : option pystr),
                   fromisoformat rt (isoformat (now_built w))
                   = Some (Naive (now_built w)) ->
                   sub_us (now_load w2) (now_built w) < day_us ->
                   exists (l2 : nat) (σ2 : state),
                     brave_search rt w2 q limit2 fd2 σ' = (Ok l2, σ2)
                     /\ heap σ2 !! l2 = Some env)).
Proof.
  split.
  - intros w key data σ e d He Hd.
    rewrite (save_to_cache_datetime _ _ _ _ _ _ He Hd).
    eexists _, _. split; [reflexivity|]. cbn [heap requests].
    split; [apply list_lookup_insert_eq; eapply lookup_lt_Some, He|].
    do 11 (split; [reflexivity|]).
    split; [|reflexivity].
    intros l Hl. apply list_lookup_insert_ne. congruence.
  - intros rt w q limit fd σ enc r soup Hmiss Hq Hfetch Hparse.
    apply load_miss_fresh_entry in Hmiss.
    rewrite fetch_search_page_eq in Hfetch. cbn [fst] in Hfetch.
    fold (search_url enc) in Hfetch.
    rewrite (brave_search_miss _ _ _ limit fd _ _ Hmiss Hq).
    unfold page_result. rewrite Hfetch, Hparse.
    destruct (extract_total soup limit fd) as [rs ->].
    eexists _, _, _. split; [reflexivity|]. cbn [heap files].
    split; [apply lookup_snoc|].
    split; [reflexivity|]. split; [reflexivity|].
    intros Hdisk.
    assert (Hfile :
      files_after_save w (cache_file_of (get_cache_key rt q))
        (success_payload w q rs) (files σ)
      !! cache_file_of (get_cache_key rt q)
      = Some (Pickled (PyEnvelope (success_payload w q rs)))).
    { unfold files_after_save. rewrite Hdisk. apply lookup_insert_eq. }
    split; [exact Hfile|].
    intros w2 limit2 fd2 Hiso Hage.
    erewrite second_call_hit;
      [| exact Hfile | cbn [success_payload searchParameters fetched_at
                            timestamp_of]; rewrite Hiso; reflexivity
       | exact Hage].
    eexists _, _. split; [reflexivity|]. apply lookup_snoc.
Qed.

(** ** The page reader *)

Lemma readle_clean_text_normalized (s : pystr) :
  normalized (Readle.clean_text s).
Proof. apply join_split_ws_normalized. Qed.

Lemma content_of_lines (ps : list node) :
  exists lines : list pystr,
    Readle.content_of ps = join [10%N] lines /\ Forall normalized lines.
Proof.
  unfold Readle.content_of.
  eexists. split; [reflexivity|].
  apply Forall_map. apply Forall_forall. intros p _.
  apply readle_clean_text_normalized.
Qed.

(** [scrape_manual] hands on to its caller the failure of the request,
    of the status and of the parse.  When the page has a title to read and
    a container, it returns the record of the title, the content, the URL
    and its host; the container is the first [article], else the first
    [main], else the [body]; the content is made of the texts of its
    paragraphs and headings, each normalized, one on a line.  The function
    takes and returns no state: there is no envelope and no cache. *)
Theorem scrape_manual_cases (rt : runtime) (w : Readle.world) (url : pystr) :
  (forall e, Readle.requests_get w url = Err e ->
             Readle.scrape_manual rt w url = Err e)
  /\ (forall res, Readle.requests_get w url = Ok res ->
        400 <= status_code res < 600 ->
        Readle.scrape_manual rt w url = Err (status_error res))
  /\ (forall res e, Readle.requests_get w url = Ok res ->
        ~ (400 <= status_code res < 600) ->
        html_parser rt (text res) = Err e ->
        Readle.scrape_manual rt w url = Err e)
  /\ (forall res soup t c h, Readle.requests_get w url = Ok res ->
        ~ (400 <= status_code res < 600) ->
        html_parser rt (text res) = Ok soup ->
        Readle.page_title soup = Ok t ->
        Readle.container soup = Some c ->
        urlparse_netloc rt url = Ok h ->
        Readle.scrape_manual rt w url
        = Ok (Readle.Article t
                (Readle.content_of
                   (find_all (named [lit "p"; lit "h2"; lit "h3"]) c))
                url h))
  /\ (forall soup,
        (forall a, find (named [lit "article"]) soup = Some a ->
                   Readle.container soup = Some a)
        /\ (forall m, find (named [lit "article"]) soup = None ->
                      find (named [lit "main"]) soup = Some m ->
                      Readle.container soup = Some m)
        /\ (find (named [lit "article"]) soup = None ->
            find (named [lit "main"]) soup = None ->
            Readle.container soup = find (named [lit "body"]) soup))
  /\ (forall ps : list node,
        exists lines : list pystr,
          Readle.content_of ps = join [10%N] lines
          /\ Forall normalized lines).
Proof.
  unfold Readle.scrape_manual, Readle.and_then, Readle.raise_for_status.
  split; [|split; [|split; [|split; [|split]]]].
  - intros e ->. reflexivity.
  - intros res -> Hs.
    replace ((400 <=? status_code res) && (status_code res <? 600))
      with true by (symmetry; apply andb_true_intro; split;
                    [apply Z.leb_le | apply Z.ltb_lt]; lia).
    reflexivity.
  - intros res e -> Hs ->.
    destruct ((400 <=? status_code res) && (status_code res <? 600)) eqn:E;
      [|reflexivity].
    apply andb_prop in E as [E1 E2].
    apply Z.leb_le in E1. apply Z.ltb_lt in E2. exfalso. apply Hs. lia.
  - intros res soup t c h -> Hs -> -> -> ->.
    destruct ((400 <=? status_code res) && (status_code res <? 600)) eqn:E;
      [|reflexivity].
    apply andb_prop in E as [E1 E2].
    apply Z.leb_le in E1. apply Z.ltb_lt in E2. exfalso. apply Hs. lia.
  - intros soup. unfold Readle.container.
    split; [|split].
    + intros a ->. reflexivity.
    + intros m -> ->. reflexivity.
    + intros -> ->. reflexivity.
  - apply content_of_lines.
Qed.

(** ** The claims on the sample pages *)



Lemma C4_cache_hit_witness :
  (fst (load_from_cache rt0 w_ok (get_cache_key rt0 query0) empty_state)
   = Ok None
   /\ brave_search rt0 w_ok query0 5 None empty_state = (Ok 0%nat, state1)
   /\ heap state1 !! 0%nat = Some payload1
   /\ status payload1 = lit "success"
   /\ disk w_ok = WriteOk
   /\ fromisoformat rt0 (isoformat (now_built w_ok))
      = Some (Naive (now_built w_ok))
   /\ sub_us (now_load w_next) (now_built w_ok) < day_us)
  /\ files state1 !! cache_file_of (get_cache_key rt0 query0)
     = Some (Pickled (PyEnvelope payload1))
  /\ exists (r2 : nat) (σ2 : state),
       brave_search rt0 w_next query0 1 (Some (lit "wikipedia.org")) state1
       = (Ok r2, σ2)
       /\ heap σ2 !! r2 = Some payload1
       /\ requests σ2 = requests state1
       /\ files σ2 = files state1.
Proof.
  assert (H1 : fst (load_from_cache rt0 w_ok (get_cache_key rt0 query0)
                      empty_state) = Ok None) by (vm_compute; reflexivity).
  assert (H2 : brave_search rt0 w_ok query0 5 None empty_state
               = (Ok 0%nat, state1)) by (vm_compute; reflexivity).
  assert (H3 : heap state1 !! 0%nat = Some payload1)
    by (vm_compute; reflexivity).
  assert (H4 : status payload1 = lit "success") by reflexivity.
  assert (H5 : disk w_ok = WriteOk) by reflexivity.
  assert (H6 : fromisoformat rt0 (isoformat (now_built w_ok))
               = Some (Naive (now_built w_ok))) by (vm_compute; reflexivity).
  assert (H7 : sub_us (now_load w_next) (now_built w_ok) < day_us)
    by (vm_compute; reflexivity).
  split; [repeat split; assumption|].
  exact (C4_cache_hit_idempotence rt0 w_ok w_next query0 5 1 None
           (Some (lit "wikipedia.org")) empty_state state1 0%nat payload1
           H1 H2 H3 H4 H5 H6 H7).
Defined.

(** The entry of the first search is a miss 25 hours later. *)
Lemma C5_ttl_expiry_witness :
  (files state1 !! cache_file_of (get_cache_key rt0 query0)
   = Some (Pickled (PyEnvelope payload1))
   /\ timestamp_of rt0 (fetched_at (searchParameters payload1)) = Some noon
   /\ day_us <= sub_us (now_load w_expired) noon)
  /\ load_from_cache rt0 w_expired (get_cache_key rt0 query0) state1
     = (Ok None, state1).
Proof.
  assert (H1 : files state1 !! cache_file_of (get_cache_key rt0 query0)
               = Some (Pickled (PyEnvelope payload1)))
    by (vm_compute; reflexivity).
  assert (H2 : timestamp_of rt0 (fetched_at (searchParameters payload1))
               = Some noon) by (vm_compute; reflexivity).
  assert (H3 : day_us <= sub_us (now_load w_expired) noon)
    by (vm_compute; discriminate).
  split; [repeat split; assumption|].
  apply (proj1 (proj2 (C5_load_from_cache_miss_or_fresh rt0 w_expired
                         (get_cache_key rt0 query0) state1))).
  right; right; right. exists payload1. split; [exact H1|].
  right. exists noon. split; assumption.
Defined.

Lemma C6_limit_bound_witness :
  (0 <= 2
   /\ fst (load_from_cache rt0 w_ok (get_cache_key rt0 query0) empty_state)
      = Ok None
   /\ quote query0 = Ok encoded0)
  /\ exists (l : nat) (σ' : state) (env : envelope),
       brave_search rt0 w_ok query0 2 None empty_state = (Ok l, σ')
       /\ heap σ' !! l = Some env
       /\ Z.of_nat (length (organic_results env)) <= 2.
Proof.
  assert (H1 : 0 <= 2) by lia.
  assert (H2 : fst (load_from_cache rt0 w_ok (get_cache_key rt0 query0)
                      empty_state) = Ok None) by (vm_compute; reflexivity).
  assert (H3 : quote query0 = Ok encoded0) by (vm_compute; reflexivity).
  split; [repeat split; assumption|].
  destruct (C6_limit_bound rt0 w_ok query0 2 None empty_state encoded0
              H1 H2 H3) as (_ & _ & l & σ' & env & Hcall & Hheap & Hlen & _).
  exists l, σ', env. repeat split; assumption.
Defined.

Lemma cache_ok_state1 : cache_ok state1.
Proof.
  destruct (brave_search_returns rt0 w_ok query0 5 None empty_state encoded0
              (cache_ok_empty [] []) eq_refl)
    as (l & σ' & env & Hcall & _ & _ & Hc).
  unfold state1. rewrite Hcall. exact Hc.
Qed.

(** The second search, answered from the cache. *)
Lemma C7_position_witness :
  cache_ok state1
  /\ forall (l : nat) (σ' : state) (env : envelope),
       brave_search rt0 w_next query0 5 None state1 = (Ok l, σ') ->
       heap σ' !! l = Some env ->
       forall (i : nat) (r : search_result),
         organic_results env !! i = Some r -> position r = Z.of_nat i + 1.
Proof.
  split; [exact cache_ok_state1|].
  exact (proj1 (C7_position_contract rt0 w_next query0 5 None state1
                  cache_ok_state1)).
Defined.

(** A search whose entry has expired and whose fetch fails. *)
Lemma C8_result_count_witness :
  cache_ok state1
  /\ exists (l : nat) (σ' : state) (env : envelope),
       brave_search rt0 w_expired query0 5 None state1 = (Ok l, σ')
       /\ heap σ' !! l = Some env
       /\ result_count (debug env) = Z.of_nat (length (organic_results env)).
Proof.
  split; [exact cache_ok_state1|].
  destruct (C8_result_count_is_length rt0 w_expired query0 5 None state1
              cache_ok_state1) as [Hall Hret].
  destruct (Hret encoded0 eq_refl) as (l & σ' & env & Hcall & Hheap).
  exists l, σ', env. split; [exact Hcall|]. split; [exact Hheap|].
  exact (proj1 (Hall l σ' env Hcall Hheap)).
Defined.

Lemma scrape_manual_cases_example :
  (Readle.requests_get reader_world reader_url = Ok sample_response
   /\ ~ (400 <= status_code sample_response < 600)
   /\ html_parser reader_rt (text sample_response) = Ok reader_page
   /\ Readle.page_title reader_page = Ok (lit "Bread")
   /\ urlparse_netloc reader_rt reader_url = Ok (lit "example.org"))
  /\ Readle.scrape_manual reader_rt reader_world reader_url
     = Ok (Readle.Article (lit "Bread")
             (lit "A heading" ++ [10%N] ++ lit "First paragraph, in bold")
             reader_url (lit "example.org")).
Proof.
  assert (H1 : Readle.requests_get reader_world reader_url
               = Ok sample_response) by reflexivity.
  assert (H2 : ~ (400 <= status_code sample_response < 600))
    by (cbn; lia).
  assert (H3 : html_parser reader_rt (text sample_response) = Ok reader_page)
    by reflexivity.
  assert (H4 : Readle.page_title reader_page = Ok (lit "Bread"))
    by (vm_compute; reflexivity).
  assert (H5 : urlparse_netloc reader_rt reader_url = Ok (lit "example.org"))
    by (vm_compute; reflexivity).
  split; [repeat split; assumption|].
  destruct (scrape_manual_cases reader_rt reader_world reader_url)
    as (_ & _ & _ & Hok & _).
  rewrite (Hok sample_response reader_page (lit "Bread")
             (Elem (lit "article") [] None
                [tag "h2" [txt " A   heading "];
                 tag "p" [txt "First paragraph, "; tag "b" [txt "in  bold"]];
                 tag "p" [txt "   "];
                 tag "h1" [txt "not read"]])
             (lit "example.org") H1 H2 H3 H4 eq_refl H5).
  vm_compute. reflexivity.
Defined.

Lemma C10_mutation_witness :
  (heap (State [raw_envelope] ∅ []) !! 0%nat = Some raw_envelope
   /\ fetched_at (searchParameters raw_envelope) = TsDatetime noon)
  /\ exists (σ' : state) (e' : envelope),
       save_to_cache w_ok (get_cache_key rt0 query0) 0
         (State [raw_envelope] ∅ []) = (Ok tt, σ')
       /\ heap σ' !! 0%nat = Some e'
       /\ fetched_at (searchParameters e') = TsStr (isoformat noon)
       /\ e' = payload1.
Proof.
  assert (H1 : heap (State [raw_envelope] ∅ []) !! 0%nat = Some raw_envelope)
    by reflexivity.
  assert (H2 : fetched_at (searchParameters raw_envelope) = TsDatetime noon)
    by reflexivity.
  split; [split; assumption|].
  destruct (proj1 C10_save_to_cache_mutates_in_place w_ok
              (get_cache_key rt0 query0) 0%nat (State [raw_envelope] ∅ [])
              raw_envelope noon H1 H2)
    as (σ' & e' & Hcall & Hheap & Hts & _).
  exists σ', e'. do 3 (split; [assumption|]).
  assert (Hc : save_to_cache w_ok (get_cache_key rt0 query0) 0
                 (State [raw_envelope] ∅ [])
               = (Ok tt, State [payload1]
                           (files state1) [])) by (vm_compute; reflexivity).
  rewrite Hc in Hcall. injection Hcall as <-. cbn [heap] in Hheap.
  injection Hheap as <-. reflexivity.
Defined.

(** ** The scenarios of the specification *)

(** Eight blocks qualify and the limit is 5: five results, counted 5. *)
Example scenario_limit_5_of_8 :
  exists σ' env,
    brave_search (runtime_of 0 eight_page) w_ok query0 5 None empty_state
    = (Ok 0%nat, σ')
    /\ heap σ' !! 0%nat = Some env
    /\ status env = lit "success"
    /\ length (organic_results env) = 5%nat
    /\ result_count (debug env) = 5
    /\ map position (organic_results env) = [1; 2; 3; 4; 5].
Proof.
  eexists _, _. split; [vm_compute; reflexivity|].
  split; [reflexivity|]. repeat split.
Qed.

(** The filter keeps the results whose link contains the domain. *)
Example scenario_filter_domain :
  extract sample_page 10 (Some (lit "wikipedia.org"))
  = Ok [SearchResult 1 (lit "Sourdough")
          (lit "https://en.wikipedia.org/wiki/Sourdough")
          (lit "Sourdough is a bread made by the fermentation of dough.")
          (lit "en.wikipedia.org") (Some (lit "3 hours ago"))].
Proof. vm_compute. reflexivity. Qed.

(** On a cache hit the limit of the call plays no part: the entry stored by
    a search with limit 5 comes back whole to a search with limit 1. *)
Example cache_hit_ignores_limit :
  exists σ' env,
    brave_search rt0 w_next query0 1 None state1 = (Ok 1%nat, σ')
    /\ heap σ' !! 1%nat = Some env
    /\ length (organic_results env) = 3%nat
    /\ requests σ' = requests state1.
Proof.
  eexists _, _. split; [vm_compute; reflexivity|].
  split; [reflexivity|]. split; reflexivity.
Qed.

(** * Further properties of the code *)

(** ** The records of the extraction *)

(** What the tests of one turn of the loop establish for the record it
    accepts. *)
Lemma scan_item_accepted (fd : option pystr) (count : nat) (item : node)
    (r : search_result) :
  scan_item fd count item = Ok (Some r) ->
  (5 <= length (title r))%nat
  /\ (30 <= length (snippet r))%nat
  /\ is_http (link r) = true
  /\ split_on 47 (link r) !! 2%nat = Some (domain r)
  /\ (forall d, date r = Some d -> d <> [])
  /\ (forall d, fd = Some d -> d <> [] -> contains d (link r) = true).
Proof.
  unfold scan_item. intros H.
  destruct (find is_link item) as [a_tag|]; [|discriminate].
  destruct (getitem_href a_tag) as [url|]; [|discriminate].
  destruct (is_http url) eqn:Hhttp; cbn [negb] in H; [|discriminate].
  destruct (match fd with
            | Some d => truthy d && negb (contains d url)
            | None => false
            end) eqn:Hfd; [discriminate|].
  match type of H with
  | (if ?c then _ else _) = _ => destruct c eqn:Hlen; [discriminate|]
  end.
  apply orb_false_elim in Hlen as [Hs Ht].
  apply Z.ltb_ge in Hs, Ht.
  unfold index in H.
  destruct (split_on 47 url !! 2%nat) as [dom|] eqn:Hdom; [|discriminate].
  injection H as <-. cbn [title snippet link domain date].
  split; [lia|]. split; [lia|]. split; [exact Hhttp|].
  split; [exact Hdom|]. split.
  - intros d Hd.
    destruct (find is_age item) as [el|]; [|discriminate].
    destruct (clean_text (get_text [] true el)) as [|c t]; [discriminate|].
    injection Hd as <-. discriminate.
  - intros d -> Hd. destruct d as [|c d]; [congruence|].
    cbn [truthy andb] in Hfd. apply negb_false_iff in Hfd. exact Hfd.
Qed.

Lemma accept_accepted (fd : option pystr) (item : node) (r : search_result) :
  accept fd item = Some r -> scan_item fd 0 item = Ok (Some r).
Proof.
  unfold accept. destruct (scan_item fd 0 item) as [[r'|]|e];
    intros H; try discriminate. injection H as ->. reflexivity.
Qed.

(** A property of records that does not look at the position holds of all
    the results of the loop when it holds of every accepted record. *)
Lemma first_accepted_Forall (P : search_result -> Prop) (limit : Z)
    (fd : option pystr) (items : list node) :
  (forall n r, P r -> P (set_position n r)) ->
  (forall item r, accept fd item = Some r -> P r) ->
  Forall P (first_accepted limit fd items).
Proof.
  intros Hpos Hacc. unfold first_accepted.
  assert (Hall : Forall P (omap (accept fd) items)).
  { apply Forall_forall. intros r Hr.
    apply list_elem_of_omap in Hr as (item & _ & Hitem).
    eapply Hacc, Hitem. }
  apply (Forall_take _ (Z.to_nat limit)) in Hall.
  revert Hall. generalize (take (Z.to_nat limit) (omap (accept fd) items)).
  generalize 0%nat. intros k l. revert k.
  induction l as [|r l IH]; intros k Hl; [constructor|].
  apply Forall_cons in Hl as [Hr Hl].
  cbn [numbered]. constructor; [apply Hpos, Hr | apply IH, Hl].
Qed.

Lemma numbered_length (k : nat) (rs : list search_result) :
  length (numbered k rs) = length rs.
Proof.
  revert k. induction rs as [|r rs IH]; intros k; [reflexivity|].
  cbn [numbered length]. rewrite IH. reflexivity.
Qed.

Lemma numbered_take (k n : nat) (rs : list search_result) :
  numbered k (take n rs) = take n (numbered k rs).
Proof.
  revert k n. induction rs as [|r rs IH]; intros k [|n];
    try reflexivity.
  cbn [take numbered]. rewrite IH. reflexivity.
Qed.

(** X1.  Every record the extraction returns has a title of at least 5
    characters and a snippet of at least 30, and its date, when it has one,
    is not empty. *)
Theorem X1_results_pass_the_noise_filter
    (soup : node) (limit : Z) (fd : option pystr) :
  exists rs : list search_result,
    extract soup limit fd = Ok rs
    /\ Forall (fun r => (5 <= length (title r))%nat
                        /\ (30 <= length (snippet r))%nat
                        /\ date r <> Some [])
              rs.
Proof.
  eexists. split; [apply extract_first_accepted|].
  apply first_accepted_Forall.
  - intros n r H. exact H.
  - intros item r Hr. apply accept_accepted, scan_item_accepted in Hr.
    destruct Hr as (Ht & Hs & _ & _ & Hd & _).
    split; [exact Ht|]. split; [exact Hs|].
    intros E. exact (Hd [] E eq_refl).
Qed.

(** X2.  Every record the extraction returns has a link that starts with
    [http://] or [https://], and its domain is the piece of the link between
    the second and the third slash. *)
Theorem X2_results_have_absolute_links
    (soup : node) (limit : Z) (fd : option pystr) :
  exists rs : list search_result,
    extract soup limit fd = Ok rs
    /\ Forall (fun r => (startswith (link r) (lit "http://") = true
                         \/ startswith (link r) (lit "https://") = true)
                        /\ split_on 47 (link r) !! 2%nat = Some (domain r))
              rs.
Proof.
  eexists. split; [apply extract_first_accepted|].
  apply first_accepted_Forall.
  - intros n r H. exact H.
  - intros item r Hr. apply accept_accepted, scan_item_accepted in Hr.
    destruct Hr as (_ & _ & Hh & Hd & _).
    split; [|exact Hd]. unfold is_http in Hh.
    apply orb_prop in Hh. exact Hh.
Qed.

Lemma scan_item_empty_filter (count : nat) (item : node) :
  scan_item (Some []) count item = scan_item None count item.
Proof.
  unfold scan_item.
  destruct (find is_link item) as [a_tag|]; [|reflexivity].
  destruct (getitem_href a_tag) as [url|]; [|reflexivity].
  destruct (is_http url); reflexivity.
Qed.

Lemma scan_empty_filter (limit : Z) (items : list node)
    (acc : list search_result) :
  scan limit (Some []) items acc = scan limit None items acc.
Proof.
  revert acc. induction items as [|item rest IH]; intros acc; [reflexivity|].
  cbn [scan]. rewrite scan_item_empty_filter.
  destruct (Z.of_nat (length acc) >=? limit); [reflexivity|].
  destruct (scan_item None (length acc) item) as [[r|]|e];
    [apply IH | apply IH | reflexivity].
Qed.

(** X3.  With a filter that is not the empty string, the link of every
    record returned contains the filter; the empty string filters nothing,
    like no filter at all. *)
Theorem X3_domain_filter (soup : node) (limit : Z) (d : pystr) :
  (d <> [] ->
   exists rs : list search_result,
     extract soup limit (Some d) = Ok rs
     /\ Forall (fun r => contains d (link r) = true) rs)
  /\ extract soup limit (Some []) = extract soup limit None.
Proof.
  split.
  - intros Hd. eexists. split; [apply extract_first_accepted|].
    apply first_accepted_Forall.
    + intros n r H. exact H.
    + intros item r Hr. apply accept_accepted, scan_item_accepted in Hr.
      destruct Hr as (_ & _ & _ & _ & _ & Hf). exact (Hf d eq_refl Hd).
  - apply scan_empty_filter.
Qed.

(** X4.  The number of records returned is the smaller of the limit and the
    number of candidates that are accepted; a negative limit gives none. *)
Theorem X4_result_count_is_min
    (soup : node) (limit : Z) (fd : option pystr) :
  exists rs : list search_result,
    extract soup limit fd = Ok rs
    /\ length rs
       = Nat.min (Z.to_nat limit)
                 (length (omap (accept fd) (find_all is_candidate soup)))
    /\ (limit <= 0 -> rs = []).
Proof.
  eexists. split; [apply extract_first_accepted|].
  unfold first_accepted. split.
  - rewrite numbered_length, length_take. reflexivity.
  - intros Hl. replace (Z.to_nat limit) with 0%nat by lia. reflexivity.
Qed.

(** X5.  Raising the limit only adds records at the end: the results for a
    limit are the first results for any larger limit. *)
Theorem X5_larger_limit_extends
    (soup : node) (limit1 limit2 : Z) (fd : option pystr) :
  limit1 <= limit2 ->
  exists rs1 rs2 : list search_result,
    extract soup limit1 fd = Ok rs1
    /\ extract soup limit2 fd = Ok rs2
    /\ rs1 = take (length rs1) rs2.
Proof.
  intros Hl. eexists _, _.
  split; [apply extract_first_accepted|].
  split; [apply extract_first_accepted|].
  unfold first_accepted.
  set (l := omap (accept fd) (find_all is_candidate soup)).
  rewrite !numbered_take, !length_take, numbered_length.
  rewrite take_take.
  destruct (Nat.le_gt_cases (Z.to_nat limit1) (length l)) as [Hle|Hgt].
  - f_equal. lia.
  - rewrite !take_ge by (rewrite numbered_length; lia). reflexivity.
Qed.

(** ** The cleaning of texts *)

Lemma split_ws_aux_spaces (cur sp : pystr) :
  forallb isspace sp = true -> split_ws_aux cur sp = split_ws_aux cur [].
Proof.
  revert cur. induction sp as [|c sp IH]; intros cur H; [reflexivity|].
  cbn [forallb] in H. apply andb_prop in H as [Hc Hsp].
  cbn [split_ws_aux]. rewrite Hc.
  destruct cur as [|x cur]; rewrite (IH [] Hsp); reflexivity.
Qed.

Lemma split_ws_aux_app_spaces (cur s sp : pystr) :
  forallb isspace sp = true ->
  split_ws_aux cur (s ++ sp) = split_ws_aux cur s.
Proof.
  intros Hsp. revert cur. induction s as [|c s IH]; intros cur.
  - apply split_ws_aux_spaces, Hsp.
  - cbn [app split_ws_aux]. destruct (isspace c).
    + destruct cur; rewrite IH; reflexivity.
    + apply IH.
Qed.

Lemma lstrip_decomp (s : pystr) :
  exists sp, s = sp ++ lstrip s /\ forallb isspace sp = true.
Proof.
  induction s as [|c s (sp & Hs & Hsp)].
  - exists []. split; reflexivity.
  - cbn [lstrip]. destruct (isspace c) eqn:Hc.
    + exists (c :: sp). split; [cbn [app]; f_equal; exact Hs|].
      cbn [forallb]. rewrite Hc. exact Hsp.
    + exists []. split; reflexivity.
Qed.

Lemma lstrip_head (s r : pystr) (c : N) :
  lstrip s = c :: r -> isspace c = false.
Proof.
  induction s as [|x s IH]; [discriminate|].
  cbn [lstrip]. destruct (isspace x) eqn:Hx; [exact IH|].
  intros H. injection H as <- _. exact Hx.
Qed.

Lemma split_ws_lstrip (s : pystr) : split_ws (lstrip s) = split_ws s.
Proof.
  induction s as [|c s IH]; [reflexivity|].
  cbn [lstrip]. unfold split_ws in *. cbn [split_ws_aux].
  destruct (isspace c) eqn:Hc; [exact IH|].
  cbn [split_ws_aux]. rewrite Hc. reflexivity.
Qed.

Lemma forallb_rev {A} (f : A -> bool) (l : list A) :
  forallb f (rev l) = forallb f l.
Proof.
  induction l as [|x l IH]; [reflexivity|].
  cbn [rev forallb]. rewrite forallb_app, IH. cbn [forallb].
  rewrite andb_true_r. apply andb_comm.
Qed.

Lemma split_ws_rstrip (s : pystr) : split_ws (rstrip s) = split_ws s.
Proof.
  unfold rstrip. destruct (lstrip_decomp (rev s)) as (sp & Hs & Hsp).
  assert (E : s = rev (lstrip (rev s)) ++ rev sp).
  { rewrite <- rev_app_distr, <- Hs, rev_involutive. reflexivity. }
  rewrite E at 2. unfold split_ws.
  rewrite split_ws_aux_app_spaces; [reflexivity|].
  rewrite forallb_rev. exact Hsp.
Qed.

(** The call of [strip] before [split] changes nothing. *)
Lemma split_ws_strip (s : pystr) : split_ws (strip s) = split_ws s.
Proof. unfold strip. rewrite split_ws_rstrip. apply split_ws_lstrip. Qed.

Lemma split_ws_aux_word (cur w rest : pystr) :
  forallb (fun c => negb (isspace c)) w = true ->
  split_ws_aux cur (w ++ rest) = split_ws_aux (rev w ++ cur) rest.
Proof.
  revert cur. induction w as [|c w IH]; intros cur H; [reflexivity|].
  cbn [forallb] in H. apply andb_prop in H as [Hc Hw].
  apply negb_true_iff in Hc.
  cbn [app split_ws_aux]. rewrite Hc, (IH _ Hw).
  cbn [rev]. rewrite <- app_assoc. reflexivity.
Qed.

(** Splitting a sequence of words joined by single spaces gives the words
    back. *)
Lemma split_ws_join (ws : list pystr) :
  Forall (fun w => w <> [] /\ forallb (fun c => negb (isspace c)) w = true)
         ws ->
  split_ws (join (lit " ") ws) = ws.
Proof.
  change (lit " ") with [32%N]. unfold split_ws.
  induction ws as [|w ws IH]; intros H; [reflexivity|].
  apply Forall_cons in H as [[Hne Hw] Hws].
  assert (Hrev : rev (rev w ++ []) = w)
    by (rewrite app_nil_r; apply rev_involutive).
  destruct ws as [|w2 ws].
  - cbn [join]. rewrite <- (app_nil_r w) at 1.
    rewrite (split_ws_aux_word _ _ _ Hw). cbn [split_ws_aux].
    destruct (rev w ++ []) as [|x l] eqn:E.
    + cbn [rev] in Hrev. congruence.
    + rewrite Hrev. reflexivity.
  - change (join [32%N] (w :: w2 :: ws))
      with (w ++ 32%N :: join [32%N] (w2 :: ws)).
    rewrite (split_ws_aux_word _ _ _ Hw). cbn [split_ws_aux].
    change (isspace 32) with true. cbv iota.
    destruct (rev w ++ []) as [|x l] eqn:E.
    + cbn [rev] in Hrev. congruence.
    + rewrite Hrev. f_equal. apply IH, Hws.
Qed.

(** X6.  The two [clean_text] functions agree; the result is the words of
    the text with single spaces between them, and cleaning a cleaned text
    changes nothing. *)
Theorem X6_clean_text_idempotent (s : pystr) :
  Readle.clean_text s = clean_text s
  /\ clean_text s = join (lit " ") (split_ws s)
  /\ clean_text (clean_text s) = clean_text s.
Proof.
  assert (H1 : Readle.clean_text s = clean_text s).
  { unfold Readle.clean_text, clean_text. destruct s; reflexivity. }
  assert (H2 : forall t, clean_text t = join (lit " ") (split_ws t)).
  { intros t. unfold clean_text. destruct t as [|c t]; [reflexivity|].
    cbn [truthy]. rewrite split_ws_strip. reflexivity. }
  split; [exact H1|]. split; [apply H2|].
  rewrite (H2 (clean_text s)), (H2 s).
  rewrite split_ws_join; [reflexivity|].
  apply split_ws_aux_words. reflexivity.
Qed.

(** ** The query and its encoding *)

Lemma utf8_char_none (c : N) : utf8_char c = None <-> surrogate c = true.
Proof.
  unfold utf8_char, surrogate.
  destruct (Z.of_N c <? 128) eqn:H1;
    [apply Z.ltb_lt in H1; split; [discriminate|];
     intros H; apply andb_prop in H as [H _]; apply N.leb_le in H; lia|].
  destruct (Z.of_N c <? 2048) eqn:H2;
    [apply Z.ltb_lt in H2; split; [discriminate|];
     intros H; apply andb_prop in H as [H _]; apply N.leb_le in H; lia|].
  destruct ((55296 <=? Z.of_N c) && (Z.of_N c <=? 57343)) eqn:H3.
  - apply andb_prop in H3 as [Ha Hb].
    apply Z.leb_le in Ha, Hb. split; [intros _|reflexivity].
    apply andb_true_intro. split; apply N.leb_le; lia.
  - split.
    + destruct (Z.of_N c <? 65536); discriminate.
    + intros H. apply andb_prop in H as [Ha Hb].
      apply N.leb_le in Ha, Hb.
      apply andb_false_elim in H3 as [H3|H3]; apply Z.leb_gt in H3; lia.
Qed.

Lemma utf8_encode_ok (s : pystr) :
  forallb (fun c => negb (surrogate c)) s = true ->
  exists bs, utf8_encode s = Ok bs.
Proof.
  induction s as [|c s IH]; intros H; [eexists; reflexivity|].
  cbn [forallb] in H. apply andb_prop in H as [Hc Hs].
  cbn [utf8_encode].
  destruct (utf8_char c) as [bs|] eqn:E.
  - destruct (IH Hs) as [rest ->]. eexists; reflexivity.
  - apply utf8_char_none in E. rewrite E in Hc. discriminate.
Qed.

Lemma utf8_encode_err (s : pystr) :
  forallb (fun c => negb (surrogate c)) s = false ->
  utf8_encode s = Err (Exn UnicodeEncodeError (lit "surrogates not allowed")).
Proof.
  induction s as [|c s IH]; intros H; [discriminate|].
  cbn [forallb] in H. cbn [utf8_encode].
  destruct (utf8_char c) as [bs|] eqn:E; [|reflexivity].
  destruct (surrogate c) eqn:Hc.
  - apply utf8_char_none in Hc. congruence.
  - cbn [negb andb] in H. rewrite (IH H). reflexivity.
Qed.

(** [quote] fails on the queries that hold a surrogate, and on no other. *)
Lemma quote_ok (q : pystr) :
  forallb (fun c => negb (surrogate c)) q = true ->
  exists enc, quote q = Ok enc.
Proof.
  intros H. unfold quote. destruct q as [|c q]; [eexists; reflexivity|].
  destruct (utf8_encode_ok _ H) as [bs ->]. eexists; reflexivity.
Qed.

Lemma quote_err (q : pystr) :
  forallb (fun c => negb (surrogate c)) q = false ->
  quote q = Err (Exn UnicodeEncodeError (lit "surrogates not allowed")).
Proof.
  intros H. unfold quote. destruct q as [|c q]; [discriminate|].
  rewrite (utf8_encode_err _ H). reflexivity.
Qed.

(** X7.  [brave_search] returns an envelope for every query that holds no
    surrogate, whatever the cache, the network and the page.  For a query
    that holds one it raises [UnicodeEncodeError] when the cache misses,
    before any request is made and with the state as it was. *)
Theorem X7_brave_search_raises_only_on_surrogates
    (rt : runtime) (w : world) (q : pystr) (limit : Z) (fd : option pystr)
    (σ : state) :
  (forallb (fun c => negb (surrogate c)) q = true ->
   exists (l : nat) (σ' : state) (env : envelope),
     brave_search rt w q limit fd σ = (Ok l, σ')
     /\ heap σ' !! l = Some env)
  /\ (forallb (fun c => negb (surrogate c)) q = false ->
      fst (load_from_cache rt w (get_cache_key rt q) σ) = Ok None ->
      brave_search rt w q limit fd σ
      = (Err (Exn UnicodeEncodeError (lit "surrogates not allowed")), σ)).
Proof.
  split.
  - intros Hq. destruct (quote_ok _ Hq) as [enc Henc].
    destruct (fresh_entry rt (now_load w)
                (files σ !! cache_file_of (get_cache_key rt q)))
      as [e|] eqn:Hf.
    + rewrite (brave_search_hit _ _ _ _ _ _ _ Hf).
      eexists _, _, _. split; [reflexivity|]. apply lookup_snoc.
    + rewrite (brave_search_miss _ _ _ _ _ _ _ Hf Henc).
      destruct (page_result rt w (search_url enc)) as [soup|e].
      * destruct (extract_total soup limit fd) as [rs ->].
        eexists _, _, _. split; [reflexivity|]. apply lookup_snoc.
      * eexists _, _, _. split; [reflexivity|]. apply lookup_snoc.
  - intros Hq Hmiss. apply load_miss_fresh_entry in Hmiss.
    apply brave_search_quote_fails; [exact Hmiss | apply quote_err, Hq].
Qed.

(** ** What a call leaves alone *)

Lemma files_after_save_other (w : world) (p path : pystr) (e : envelope)
    (fs : gmap (list N) file) :
  path <> p -> files_after_save w p e fs !! path = fs !! path.
Proof.
  intros Hne. unfold files_after_save.
  destruct (disk w); try reflexivity; apply lookup_insert_ne; congruence.
Qed.

(** X8.  A call of [brave_search] changes no envelope that was there: it
    adds at most one to the heap.  It makes at most one request, and the
    only file it can change is the cache file of its query. *)
Theorem X8_brave_search_frame
    (rt : runtime) (w : world) (q : pystr) (limit : Z) (fd : option pystr)
    (σ : state) :
  exists (r : exc nat) (σ' : state),
    brave_search rt w q limit fd σ = (r, σ')
    /\ (exists tail, heap σ' = heap σ ++ tail /\ (length tail <= 1)%nat)
    /\ (requests σ' = requests σ
        \/ exists url, requests σ' = requests σ ++ [url])
    /\ (forall path, path <> cache_file_of (get_cache_key rt q) ->
                     files σ' !! path = files σ !! path).
Proof.
  destruct (fresh_entry rt (now_load w)
              (files σ !! cache_file_of (get_cache_key rt q)))
    as [e|] eqn:Hf.
  - rewrite (brave_search_hit _ _ _ _ _ _ _ Hf).
    eexists _, _. split; [reflexivity|]. cbn [heap files requests].
    split; [exists [e]; split; [reflexivity | cbn; lia]|].
    split; [left; reflexivity | reflexivity].
  - destruct (quote q) as [enc|ex] eqn:Hq.
    + rewrite (brave_search_miss _ _ _ _ _ _ _ Hf Hq).
      destruct (page_result rt w (search_url enc)) as [soup|ex].
      * destruct (extract_total soup limit fd) as [rs ->].
        eexists _, _. split; [reflexivity|]. cbn [heap files requests].
        split; [eexists [_]; split; [reflexivity | cbn; lia]|].
        split; [right; eexists; reflexivity|].
        intros path Hp. apply files_after_save_other, Hp.
      * eexists _, _. split; [reflexivity|]. cbn [heap files requests].
        split; [eexists [_]; split; [reflexivity | cbn; lia]|].
        split; [right; eexists; reflexivity | reflexivity].
    + rewrite (brave_search_quote_fails _ _ _ _ _ _ _ Hf Hq).
      eexists _, _. split; [reflexivity|].
      split; [exists []; split; [symmetry; apply app_nil_r | cbn; lia]|].
      split; [left; reflexivity | reflexivity].
Qed.

(** X9.  On a cache hit the answer depends on the query and on the clock
    alone: two calls that read the same time return the same envelope
    whatever their limits, filters, headers and networks, and make no
    request and write no file. *)
Theorem X9_cache_hit_ignores_limit_and_filter
    (rt : runtime) (w1 w2 : world) (q : pystr) (limit1 limit2 : Z)
    (fd1 fd2 : option pystr) (σ : state) (l : nat) :
  fst (load_from_cache rt w1 (get_cache_key rt q) σ) = Ok (Some l) ->
  now_load w2 = now_load w1 ->
  brave_search rt w1 q limit1 fd1 σ = brave_search rt w2 q limit2 fd2 σ
  /\ fst (brave_search rt w1 q limit1 fd1 σ) = Ok l
  /\ requests (snd (brave_search rt w1 q limit1 fd1 σ)) = requests σ
  /\ files (snd (brave_search rt w1 q limit1 fd1 σ)) = files σ.
Proof.
  intros Hhit Hnow. rewrite load_from_cache_eq in Hhit.
  destruct (fresh_entry rt (now_load w1)
              (files σ !! cache_file_of (get_cache_key rt q)))
    as [e|] eqn:Hf; [|discriminate].
  cbn [fst] in Hhit. injection Hhit as <-.
  assert (Hf2 : fresh_entry rt (now_load w2)
                  (files σ !! cache_file_of (get_cache_key rt q)) = Some e)
    by (rewrite Hnow; exact Hf).
  rewrite (brave_search_hit _ _ _ limit1 fd1 _ _ Hf).
  rewrite (brave_search_hit _ _ _ limit2 fd2 _ _ Hf2).
  repeat split.
Qed.

(** ** The cache file of a key *)

Lemma cache_file_of_inj (k1 k2 : pystr) :
  cache_file_of k1 = cache_file_of k2 -> k1 = k2.
Proof.
  unfold cache_file_of. intros H.
  apply app_inv_head in H. apply app_inv_head in H.
  apply app_inv_tail in H. exact H.
Qed.

Lemma save_to_cache_dangling (w : world) (key : pystr) (data : nat)
    (σ : state) :
  heap σ !! data = None -> save_to_cache w key data σ = (Ok tt, σ).
Proof.
  intros H. unfold save_to_cache, try_except, save_try. rewrite H.
  reflexivity.
Qed.

Lemma timestamp_cases (t : timestamp) :
  (exists d, t = TsDatetime d) \/ (forall d, t <> TsDatetime d).
Proof.
  destruct t as [|s|d|]; [right|right|left|right]; try discriminate.
  exists d. reflexivity.
Qed.

(** X10.  [save_to_cache] never raises, whatever it is given and however
    the write ends.  It makes no request, changes no envelope but the one
    it is given, and no file but the cache file of its key. *)
Theorem X10_save_to_cache_best_effort
    (w : world) (key : pystr) (data : nat) (σ : state) :
  exists σ' : state,
    save_to_cache w key data σ = (Ok tt, σ')
    /\ requests σ' = requests σ
    /\ length (heap σ') = length (heap σ)
    /\ (forall l : nat, l <> data -> heap σ' !! l = heap σ !! l)
    /\ (forall path, path <> cache_file_of key ->
                     files σ' !! path = files σ !! path).
Proof.
  destruct (heap σ !! data) as [e|] eqn:He.
  - destruct (timestamp_cases (fetched_at (searchParameters e)))
      as [[d Hd]|Hd].
    + rewrite (save_to_cache_datetime _ _ _ _ _ _ He Hd).
      eexists. split; [reflexivity|]. cbn [heap files requests].
      split; [reflexivity|]. split; [apply length_insert|].
      split.
      * intros l Hl. apply list_lookup_insert_ne. congruence.
      * intros path Hp. apply files_after_save_other, Hp.
    + rewrite (save_to_cache_not_datetime _ _ _ _ _ He Hd).
      eexists. repeat split.
  - rewrite (save_to_cache_dangling _ _ _ _ He). eexists. repeat split.
Qed.

(** X11.  A second [save_to_cache] of the same envelope does nothing,
    whatever became of the first: the first has turned the timestamp into
    a string, which has no [isoformat], so the second stops before it
    writes.  A write that failed cannot be tried again on the same
    envelope. *)
Theorem X11_second_save_does_nothing
    (w1 w2 : world) (key1 key2 : pystr) (data : nat) (σ : state) :
  save_to_cache w2 key2 data (snd (save_to_cache w1 key1 data σ))
  = (Ok tt, snd (save_to_cache w1 key1 data σ)).
Proof.
  destruct (heap σ !! data) as [e|] eqn:He.
  - destruct (timestamp_cases (fetched_at (searchParameters e)))
      as [[d Hd]|Hd].
    + rewrite (save_to_cache_datetime _ _ _ _ _ _ He Hd). cbn [snd].
      eapply save_to_cache_not_datetime.
      * cbn [heap]. apply list_lookup_insert_eq.
        eapply lookup_lt_Some, He.
      * intros d'. discriminate.
    + rewrite (save_to_cache_not_datetime _ _ _ _ _ He Hd). cbn [snd].
      apply (save_to_cache_not_datetime _ _ _ _ _ He Hd).
  - rewrite (save_to_cache_dangling _ _ _ _ He). cbn [snd].
    apply save_to_cache_dangling, He.
Qed.

(** X12.  When the write succeeds, a [load_from_cache] of the same key less
    than 24 hours after the timestamp gives an envelope equal to the one
    saved as [save_to_cache] left it (with the ISO string), as a new
    object; a [load_from_cache] of another key gives what it gave before
    the save. *)
Theorem X12_save_then_load
    (rt : runtime) (w w2 : world) (key : pystr) (data : nat) (σ : state)
    (e : envelope) (d : datetime) :
  heap σ !! data = Some e ->
  fetched_at (searchParameters e) = TsDatetime d ->
  disk w = WriteOk ->
  fromisoformat rt (isoformat d) = Some (Naive d) ->
  sub_us (now_load w2) d < day_us ->
  exists (σ1 σ2 : state) (l : nat) (e' : envelope),
    save_to_cache w key data σ = (Ok tt, σ1)
    /\ heap σ1 !! data = Some e'
    /\ load_from_cache rt w2 key σ1 = (Ok (Some l), σ2)
    /\ heap σ2 !! l = Some e'
    /\ l <> data
    /\ forall key', key' <> key ->
         fst (load_from_cache rt w2 key' σ1)
         = fst (load_from_cache rt w2 key' σ).
Proof.
  intros He Hd Hdisk Hiso Hage.
  rewrite (save_to_cache_datetime _ _ _ _ _ _ He Hd).
  set (e' := set_fetched_at (TsStr (isoformat d)) e).
  assert (Hlt : (data < length (heap σ))%nat) by (eapply lookup_lt_Some, He).
  eexists _, _, _, e'. split; [reflexivity|].
  rewrite !load_from_cache_eq. cbn [heap files requests].
  unfold files_after_save. rewrite Hdisk, lookup_insert_eq.
  cbn [fresh_entry].
  assert (Hts : timestamp_of rt (fetched_at (searchParameters e')) = Some d)
    by (cbn [e' set_fetched_at searchParameters fetched_at timestamp_of];
        rewrite Hiso; reflexivity).
  rewrite Hts. apply Z.ltb_lt in Hage. rewrite Hage.
  split; [apply list_lookup_insert_eq, Hlt|].
  split; [reflexivity|]. cbn [heap].
  split; [apply lookup_snoc|].
  split; [rewrite length_insert; lia|].
  intros key' Hk. rewrite !load_from_cache_eq. cbn [files heap].
  rewrite lookup_insert_ne
    by (intros E; apply cache_file_of_inj in E; congruence).
  destruct (fresh_entry rt (now_load w2) (files σ !! cache_file_of key'));
    cbn [fst]; [rewrite length_insert|]; reflexivity.
Qed.

(** ** What the cache holds *)

(** X13.  [brave_search] only ever pickles success envelopes whose time of
    fetch is an ISO string: when the envelopes in the cache directory are
    of that kind before a call, they are after it, whatever the call does.
    An error envelope is never stored. *)
Theorem X13_cache_holds_success_envelopes
    (rt : runtime) (w : world) (q : pystr) (limit : Z) (fd : option pystr)
    (σ : state) :
  stored_success σ ->
  stored_success (snd (brave_search rt w q limit fd σ)).
Proof.
  intros Hs.
  destruct (fresh_entry rt (now_load w)
              (files σ !! cache_file_of (get_cache_key rt q)))
    as [e|] eqn:Hf.
  - rewrite (brave_search_hit _ _ _ _ _ _ _ Hf). exact Hs.
  - destruct (quote q) as [enc|ex] eqn:Hq.
    + rewrite (brave_search_miss _ _ _ _ _ _ _ Hf Hq).
      destruct (page_result rt w (search_url enc)) as [soup|ex];
        [|exact Hs].
      destruct (extract_total soup limit fd) as [rs ->].
      intros path e. cbn [snd files]. unfold files_after_save.
      destruct (disk w); intros He.
      * destruct (decide (cache_file_of (get_cache_key rt q) = path))
          as [<-|Hne].
        -- rewrite lookup_insert_eq in He. injection He as <-.
           split; [reflexivity|]. split; [reflexivity|].
           eexists; reflexivity.
        -- rewrite lookup_insert_ne in He by exact Hne. exact (Hs _ _ He).
      * exact (Hs _ _ He).
      * destruct (decide (cache_file_of (get_cache_key rt q) = path))
          as [<-|Hne].
        -- rewrite lookup_insert_eq in He. discriminate.
        -- rewrite lookup_insert_ne in He by exact Hne. exact (Hs _ _ He).
    + rewrite (brave_search_quote_fails _ _ _ _ _ _ _ Hf Hq). exact Hs.
Qed.

(** ** The page reader: pages without a container or a title string *)

(** X14.  When the request and the parse succeed, [scrape_manual] still
    raises [AttributeError] on a page whose [title] has no single string
    (an empty title, or one with several children), and on a page that has
    no [article], no [main] and no [body]. *)
Theorem X14_scrape_manual_attribute_errors
    (rt : runtime) (w : Readle.world) (url : pystr) (res : response)
    (soup : node) :
  Readle.requests_get w url = Ok res ->
  ~ (400 <= status_code res < 600) ->
  html_parser rt (text res) = Ok soup ->
  (forall t, find (named [lit "title"]) soup = Some t ->
             string_of t = None ->
             Readle.scrape_manual rt w url
             = Err (Exn AttributeError
                      (lit "'NoneType' object has no attribute 'strip'")))
  /\ (forall ti, Readle.page_title soup = Ok ti ->
        find (named [lit "article"]) soup = None ->
        find (named [lit "main"]) soup = None ->
        find (named [lit "body"]) soup = None ->
        Readle.scrape_manual rt w url
        = Err (Exn AttributeError
                 (lit "'NoneType' object has no attribute 'find_all'"))).
Proof.
  intros Hget Hstatus Hparse.
  unfold Readle.scrape_manual, Readle.and_then, Readle.raise_for_status.
  rewrite Hget.
  replace ((400 <=? status_code res) && (status_code res <? 600)) with false
    by (symmetry; apply andb_false_iff;
        destruct (Z.leb_spec 400 (status_code res));
        destruct (Z.ltb_spec (status_code res) 600); auto; lia).
  rewrite Hparse. split.
  - intros t Ht Hs. unfold Readle.page_title. rewrite Ht, Hs. reflexivity.
  - intros ti -> Ha Hm Hb. unfold Readle.container.
    rewrite Ha, Hm, Hb. reflexivity.
Qed.

(** ** The page reader: the lines of the content *)

Lemma split_ws_aux_nil (cur s : pystr) :
  split_ws_aux cur s = [] -> cur = [] /\ forallb isspace s = true.
Proof.
  revert cur. induction s as [|c s IH]; intros cur H.
  - destruct cur; [split; reflexivity | discriminate].
  - cbn [split_ws_aux] in H. cbn [forallb].
    destruct (isspace c) eqn:Hc.
    + destruct cur as [|x cur]; [|discriminate].
      destruct (IH [] H) as [_ Hs]. split; [reflexivity | exact Hs].
    + destruct (IH _ H) as [E _]. discriminate.
Qed.

Lemma lstrip_spaces (s : pystr) :
  forallb isspace s = true -> lstrip s = [].
Proof.
  induction s as [|c s IH]; intros H; [reflexivity|].
  cbn [forallb] in H. apply andb_prop in H as [Hc Hs].
  cbn [lstrip]. rewrite Hc. apply IH, Hs.
Qed.

(** A text that is not blank has a word. *)
Lemma split_ws_nonblank (t : pystr) :
  truthy (strip t) = true -> split_ws t <> [].
Proof.
  intros Ht E. apply split_ws_aux_nil in E as [_ E].
  unfold strip in Ht. rewrite (lstrip_spaces _ E) in Ht. discriminate.
Qed.

Lemma readle_clean_text_nonblank (t : pystr) :
  truthy (strip t) = true -> Readle.clean_text t <> [].
Proof.
  intros Ht. unfold Readle.clean_text. rewrite split_ws_strip.
  pose proof (split_ws_nonblank t Ht) as Hne.
  pose proof (split_ws_aux_words [] t eq_refl) as Hw.
  fold (split_ws t) in Hw.
  destruct (split_ws t) as [|w ws]; [congruence|].
  apply Forall_cons in Hw as [[Hwne _] _].
  destruct w as [|c w]; [congruence|].
  destruct ws; discriminate.
Qed.

Lemma forallb_join (f : N -> bool) (sep : pystr) (ws : list pystr) :
  forallb f sep = true ->
  Forall (fun w => forallb f w = true) ws ->
  forallb f (join sep ws) = true.
Proof.
  intros Hsep. induction ws as [|w ws IH]; intros H; [reflexivity|].
  apply Forall_cons in H as [Hw Hws].
  destruct ws as [|w2 ws]; [exact Hw|].
  change (join sep (w :: w2 :: ws)) with (w ++ sep ++ join sep (w2 :: ws)).
  rewrite !forallb_app, Hw, Hsep, (IH Hws). reflexivity.
Qed.

(** A normalized text holds no line break. *)
Lemma normalized_no_newline (l : pystr) :
  normalized l -> forallb (fun c => negb (c =? 10)%N) l = true.
Proof.
  intros (ws & -> & Hws). apply forallb_join; [reflexivity|].
  eapply Forall_impl; [exact Hws|].
  intros w [_ Hw]. rewrite forallb_forall in *. intros c Hc.
  specialize (Hw c Hc). destruct (N.eqb_spec c 10) as [->|]; [|reflexivity].
  discriminate Hw.
Qed.

Lemma split_on_aux_free (sep : N) (cur w rest : pystr) :
  forallb (fun c => negb (c =? sep)%N) w = true ->
  split_on_aux sep cur (w ++ rest) = split_on_aux sep (rev w ++ cur) rest.
Proof.
  revert cur. induction w as [|c w IH]; intros cur H; [reflexivity|].
  cbn [forallb] in H. apply andb_prop in H as [Hc Hw].
  apply negb_true_iff in Hc.
  cbn [app split_on_aux]. rewrite Hc, (IH _ Hw).
  cbn [rev]. rewrite <- app_assoc. reflexivity.
Qed.

(** Splitting at the separator gives back the pieces that were joined, when
    no piece holds the separator. *)
Lemma split_on_join (sep : N) (ls : list pystr) :
  ls <> [] ->
  Forall (fun l => forallb (fun c => negb (c =? sep)%N) l = true) ls ->
  split_on sep (join [sep] ls) = ls.
Proof.
  unfold split_on. induction ls as [|l ls IH]; intros Hne H; [congruence|].
  apply Forall_cons in H as [Hl Hls].
  destruct ls as [|l2 ls].
  - cbn [join]. rewrite <- (app_nil_r l) at 1.
    rewrite (split_on_aux_free _ _ _ _ Hl). cbn [split_on_aux].
    rewrite app_nil_r, rev_involutive. reflexivity.
  - change (join [sep] (l :: l2 :: ls))
      with (l ++ sep :: join [sep] (l2 :: ls)).
    rewrite (split_on_aux_free _ _ _ _ Hl). cbn [split_on_aux].
    rewrite N.eqb_refl, app_nil_r, rev_involutive.
    f_equal. apply IH; [discriminate | exact Hls].
Qed.

(** X15.  The content of a page has one line for each paragraph or heading
    that is not blank, and no other: every line is a normalized text that is
    not empty, and splitting the content at the line breaks gives the lines
    back.  With no such paragraph the content is empty. *)
Theorem X15_content_has_one_line_per_paragraph (ps : list node) :
  Forall (fun l => l <> [] /\ normalized l) (content_lines ps)
  /\ (content_lines ps = [] -> Readle.content_of ps = [])
  /\ (content_lines ps <> [] ->
      split_on 10 (Readle.content_of ps) = content_lines ps).
Proof.
  assert (Hall : Forall (fun l => l <> [] /\ normalized l) (content_lines ps)).
  { unfold content_lines. apply Forall_map, Forall_forall. intros p Hp.
    apply list_elem_of_In, filter_In in Hp as [_ Hp].
    split; [apply readle_clean_text_nonblank, Hp|].
    apply readle_clean_text_normalized. }
  split; [exact Hall|].
  change (Readle.content_of ps) with (join [10%N] (content_lines ps)).
  split.
  - intros ->. reflexivity.
  - intros Hne. apply split_on_join; [exact Hne|].
    eapply Forall_impl; [exact Hall|].
    intros l [_ Hl]. apply normalized_no_newline, Hl.
Qed.

(** ** The headers and the fetch *)

(** X16.  Two calls of [generate_headers] can differ in [User-Agent] and
    [X-Forwarded-For] only; these two come from [faker], and the four
    others are the same in every call. *)
Theorem X16_headers_vary_in_two_fields (w1 w2 : world) :
  generate_headers w1 !! lit "User-Agent" = Some (faker_user_agent w1)
  /\ generate_headers w1 !! lit "X-Forwarded-For"
     = Some (faker_ipv4_public w1)
  /\ size (generate_headers w1) = 6%nat
  /\ forall k : pystr,
       k <> lit "User-Agent" -> k <> lit "X-Forwarded-For" ->
       generate_headers w1 !! k = generate_headers w2 !! k.
Proof.
  split; [|split; [|split]].
  - unfold generate_headers. apply lookup_insert_eq.
  - unfold generate_headers.
    do 4 (rewrite lookup_insert_ne by (vm_compute; discriminate)).
    apply lookup_insert_eq.
  - unfold generate_headers.
    repeat (rewrite map_size_insert_None;
            [|repeat (rewrite lookup_insert_ne by (vm_compute; discriminate));
              apply lookup_empty]).
    rewrite map_size_empty. reflexivity.
  - intros k Hua Hip. unfold generate_headers.
    rewrite !lookup_insert.
    repeat case_decide; congruence.
Qed.

(** X17.  [fetch_search_page] makes one request and no more, whatever the
    outcome, and touches neither the envelopes nor the files.  It returns
    the response when its status is from 200 to 299; for another status it
    raises the error of the status, and it raises again the error of the
    transport. *)
Theorem X17_fetch_search_page_single_attempt
    (w : world) (url : pystr) (headers : gmap (list N) pystr) (σ : state) :
  exists (r : exc response) (σ' : state),
    fetch_search_page w url headers σ = (r, σ')
    /\ requests σ' = requests σ ++ [url]
    /\ heap σ' = heap σ /\ files σ' = files σ
    /\ (forall resp, r = Ok resp ->
          client_get w url headers = Ok resp
          /\ 200 <= status_code resp <= 299)
    /\ (forall resp, client_get w url headers = Ok resp ->
          (200 <= status_code resp <= 299 -> r = Ok resp)
          /\ (~ (200 <= status_code resp <= 299) ->
              r = Err (status_error resp)))
    /\ (forall e, client_get w url headers = Err e -> r = Err e).
Proof.
  unfold fetch_search_page, try_except, bind, lift, raise, ret,
    raise_for_status.
  destruct (client_get w url headers) as [resp|e].
  - destruct ((200 <=? status_code resp) && (status_code resp <=? 299))
      eqn:Hs.
    + apply andb_prop in Hs as [Ha Hb]. apply Z.leb_le in Ha, Hb.
      eexists _, _. split; [reflexivity|]. cbn [heap files requests].
      do 3 (split; [reflexivity|]). split; [|split].
      * intros resp' E. injection E as <-. split; [reflexivity | lia].
      * intros resp' E. injection E as <-.
        split; [reflexivity | intros H; exfalso; apply H; lia].
      * intros e E. discriminate.
    + eexists _, _. split; [reflexivity|]. cbn [heap files requests].
      do 3 (split; [reflexivity|]). split; [|split].
      * intros resp' E. discriminate.
      * intros resp' E. injection E as <-. split; [|reflexivity].
        intros [Ha Hb]. apply Z.leb_le in Ha, Hb.
        rewrite Ha, Hb in Hs. discriminate.
      * intros e E. discriminate.
  - eexists _, _. split; [reflexivity|]. cbn [heap files requests].
    do 3 (split; [reflexivity|]). split; [|split].
    + intros resp E. discriminate.
    + intros resp E. discriminate.
    + intros e' E. injection E as <-. reflexivity.
Qed.

(** ** The empty query *)

(** X18.  The empty query is not turned down: its key is ["0"] in every
    process, and on a cache miss the request goes out with an empty
    [q]. *)
Theorem X18_empty_query_is_sent
    (rt : runtime) (w : world) (limit : Z) (fd : option pystr) (σ : state) :
  get_cache_key rt [] = lit "0"
  /\ (fst (load_from_cache rt w (lit "0") σ) = Ok None ->
      requests (snd (brave_search rt w [] limit fd σ))
      = requests σ ++ [lit "https://search.brave.com/search?q="]).
Proof.
  split; [reflexivity|].
  intros Hmiss. apply load_miss_fresh_entry in Hmiss.
  rewrite (brave_search_miss rt w [] limit fd σ [] Hmiss eq_refl).
  replace (search_url []) with (lit "https://search.brave.com/search?q=")
    by (unfold search_url; rewrite app_nil_r; reflexivity).
  destruct (page_result rt w (lit "https://search.brave.com/search?q="))
    as [soup|e]; [|reflexivity].
  destruct (extract soup limit fd); reflexivity.
Qed.

(** ** The cache across processes and write failures *)

(** X19.  A process whose secret gives the query another hash does not
    find the entry that a first process stored: with that entry as the only
    file of the cache directory, its lookup is a miss and its search makes
    a request. *)
Theorem X19_entry_is_lost_to_another_process
    (rt1 rt2 : runtime) (w : world) (q enc : pystr) (limit : Z)
    (fd : option pystr) (f : file) (h : list envelope) (rq : list pystr) :
  hash (secret rt1) q <> hash (secret rt2) q ->
  quote q = Ok enc ->
  load_from_cache rt2 w (get_cache_key rt2 q)
    (State h {[ cache_file_of (get_cache_key rt1 q) := f ]} rq)
  = (Ok None, State h {[ cache_file_of (get_cache_key rt1 q) := f ]} rq)
  /\ requests
       (snd (brave_search rt2 w q limit fd
               (State h {[ cache_file_of (get_cache_key rt1 q) := f ]} rq)))
     = rq ++ [lit "https://search.brave.com/search?q=" ++ enc].
Proof.
  intros Hhash Hq.
  assert (Hnone :
    ({[ cache_file_of (get_cache_key rt1 q) := f ]} : gmap (list N) file)
    !! cache_file_of (get_cache_key rt2 q) = None).
  { apply lookup_singleton_ne. intros E.
    apply cache_file_of_inj, get_cache_key_eq_iff in E. exact (Hhash E). }
  assert (Hmiss :
    fresh_entry rt2 (now_load w)
      (files (State h {[ cache_file_of (get_cache_key rt1 q) := f ]} rq)
       !! cache_file_of (get_cache_key rt2 q)) = None).
  { cbn [files]. rewrite Hnone. reflexivity. }
  split.
  - rewrite load_from_cache_eq, Hmiss. reflexivity.
  - rewrite (brave_search_miss _ _ _ _ _ _ _ Hmiss Hq).
    fold (search_url enc).
    destruct (page_result rt2 w (search_url enc)) as [soup|e];
      [|reflexivity].
    destruct (extract soup limit fd); reflexivity.
Qed.

(** X20.  The fate of the write to the cache file does not show in what
    [brave_search] returns: the result, the envelopes and the requests are
    the same whether the write succeeds or fails. *)
Theorem X20_write_failure_is_invisible
    (rt : runtime) (w : world) (d : disk_outcome) (q : pystr) (limit : Z)
    (fd : option pystr) (σ : state) :
  fst (brave_search rt (with_disk d w) q limit fd σ)
  = fst (brave_search rt w q limit fd σ)
  /\ heap (snd (brave_search rt (with_disk d w) q limit fd σ))
     = heap (snd (brave_search rt w q limit fd σ))
  /\ requests (snd (brave_search rt (with_disk d w) q limit fd σ))
     = requests (snd (brave_search rt w q limit fd σ)).
Proof.
  destruct (fresh_entry rt (now_load w)
              (files σ !! cache_file_of (get_cache_key rt q)))
    as [e|] eqn:Hf.
  - rewrite (brave_search_hit rt (with_disk d w) _ _ _ _ _ Hf).
    rewrite (brave_search_hit rt w _ _ _ _ _ Hf). repeat split.
  - destruct (quote q) as [enc|ex] eqn:Hq.
    + rewrite (brave_search_miss rt (with_disk d w) _ _ _ _ _ Hf Hq).
      rewrite (brave_search_miss rt w _ _ _ _ _ Hf Hq).
      change (page_result rt (with_disk d w) (search_url enc))
        with (page_result rt w (search_url enc)).
      destruct (page_result rt w (search_url enc)) as [soup|ex].
      * destruct (extract soup limit fd); repeat split.
      * repeat split.
    + rewrite (brave_search_quote_fails rt (with_disk d w) _ _ _ _ _ Hf Hq).
      rewrite (brave_search_quote_fails rt w _ _ _ _ _ Hf Hq).
      repeat split.
Qed.

(** ** The further properties on the sample pages *)

Lemma X5_larger_limit_witness :
  1 <= 2
  /\ exists rs1 rs2 : list search_result,
       extract sample_page 1 None = Ok rs1
       /\ extract sample_page 2 None = Ok rs2
       /\ rs1 = take (length rs1) rs2.
Proof.
  assert (H : 1 <= 2) by lia.
  split; [exact H|].
  exact (X5_larger_limit_extends sample_page 1 2 None H).
Defined.

Lemma X9_cache_hit_witness :
  (fst (load_from_cache rt0 w_next (get_cache_key rt0 query0) state1)
   = Ok (Some 1%nat)
   /\ now_load w_next_other = now_load w_next)
  /\ brave_search rt0 w_next query0 5 None state1
     = brave_search rt0 w_next_other query0 1 (Some (lit "wikipedia.org"))
         state1.
Proof.
  assert (H1 : fst (load_from_cache rt0 w_next (get_cache_key rt0 query0)
                      state1) = Ok (Some 1%nat)) by (vm_compute; reflexivity).
  assert (H2 : now_load w_next_other = now_load w_next) by reflexivity.
  split; [split; assumption|].
  exact (proj1 (X9_cache_hit_ignores_limit_and_filter rt0 w_next w_next_other
                  query0 5 1 None (Some (lit "wikipedia.org")) state1 1%nat
                  H1 H2)).
Defined.

Lemma X12_save_then_load_witness :
  (heap (State [raw_envelope] ∅ []) !! 0%nat = Some raw_envelope
   /\ fetched_at (searchParameters raw_envelope) = TsDatetime noon
   /\ disk w_ok = WriteOk
   /\ fromisoformat rt0 (isoformat noon) = Some (Naive noon)
   /\ sub_us (now_load w_next) noon < day_us)
  /\ exists (σ1 σ2 : state) (l : nat) (e' : envelope),
       save_to_cache w_ok (get_cache_key rt0 query0) 0
         (State [raw_envelope] ∅ []) = (Ok tt, σ1)
       /\ heap σ1 !! 0%nat = Some e'
       /\ load_from_cache rt0 w_next (get_cache_key rt0 query0) σ1
          = (Ok (Some l), σ2)
       /\ heap σ2 !! l = Some e'.
Proof.
  assert (H1 : heap (State [raw_envelope] ∅ []) !! 0%nat = Some raw_envelope)
    by reflexivity.
  assert (H2 : fetched_at (searchParameters raw_envelope) = TsDatetime noon)
    by reflexivity.
  assert (H3 : disk w_ok = WriteOk) by reflexivity.
  assert (H4 : fromisoformat rt0 (isoformat noon) = Some (Naive noon))
    by (vm_compute; reflexivity).
  assert (H5 : sub_us (now_load w_next) noon < day_us)
    by (vm_compute; reflexivity).
  split; [repeat split; assumption|].
  destruct (X12_save_then_load rt0 w_ok w_next (get_cache_key rt0 query0)
              0%nat (State [raw_envelope] ∅ []) raw_envelope noon
              H1 H2 H3 H4 H5)
    as (σ1 & σ2 & l & e' & Hs & Hh & Hl & Hh2 & _).
  exists σ1, σ2, l, e'. repeat split; assumption.
Defined.

Lemma stored_success_empty (h : list envelope) (rq : list pystr) :
  stored_success (State h ∅ rq).
Proof. intros p e H. cbn [files] in H. rewrite lookup_empty in H. discriminate. Qed.

Lemma X13_cache_holds_success_witness :
  stored_success empty_state /\ stored_success state1.
Proof.
  assert (H : stored_success empty_state) by apply stored_success_empty.
  split; [exact H|].
  exact (X13_cache_holds_success_envelopes rt0 w_ok query0 5 None
           empty_state H).
Defined.

(** The reader on a page without [body], and on a page whose title is
    empty. *)
Lemma X14_attribute_error_witness :
  (Readle.requests_get reader_world reader_url = Ok sample_response
   /\ ~ (400 <= status_code sample_response < 600)
   /\ html_parser (runtime_of 0 bare_page) (text sample_response)
      = Ok bare_page)
  /\ Readle.scrape_manual (runtime_of 0 bare_page) reader_world reader_url
     = Err (Exn AttributeError
              (lit "'NoneType' object has no attribute 'find_all'")).
Proof.
  assert (H1 : Readle.requests_get reader_world reader_url
               = Ok sample_response) by reflexivity.
  assert (H2 : ~ (400 <= status_code sample_response < 600))
    by (cbn; lia).
  assert (H3 : html_parser (runtime_of 0 bare_page) (text sample_response)
               = Ok bare_page) by reflexivity.
  split; [repeat split; assumption|].
  apply (proj2 (X14_scrape_manual_attribute_errors (runtime_of 0 bare_page)
                  reader_world reader_url sample_response bare_page
                  H1 H2 H3) (lit "(no title)"));
    vm_compute; reflexivity.
Defined.

Lemma X19_other_process_witness :
  (hash (secret rt0) (lit "a") <> hash (secret rt1) (lit "a")
   /\ quote (lit "a") = Ok (lit "a"))
  /\ load_from_cache rt1 w_next (get_cache_key rt1 (lit "a"))
       (State [] {[ cache_file_of (get_cache_key rt0 (lit "a"))
                    := Pickled (PyEnvelope payload1) ]} [])
     = (Ok None,
        State [] {[ cache_file_of (get_cache_key rt0 (lit "a"))
                    := Pickled (PyEnvelope payload1) ]} []).
Proof.
  assert (H1 : hash (secret rt0) (lit "a") <> hash (secret rt1) (lit "a"))
    by (vm_compute; discriminate).
  assert (H2 : quote (lit "a") = Ok (lit "a")) by reflexivity.
  split; [split; assumption|].
  exact (proj1 (X19_entry_is_lost_to_another_process rt0 rt1 w_next (lit "a")
                  (lit "a") 5 None (Pickled (PyEnvelope payload1)) [] []
                  H1 H2)).
Defined.

(** The empty title makes the reader raise as well. *)
Example untitled_page_raises :
  Readle.scrape_manual (runtime_of 0 untitled_page) reader_world reader_url
  = Err (Exn AttributeError
           (lit "'NoneType' object has no attribute 'strip'")).
Proof. vm_compute. reflexivity. Qed.

(** ** The page reader on pages it does not expect *)

(** C9 (the code departs from it).  The request and the parse succeed, and
    [scrape_manual] returns no record: on a page with an [article] and an
    empty [title] it raises [AttributeError], because the guard
    [if soup.title] lets through a title whose [string] is [None]; on a page
    without [article], [main] and [body] it raises [AttributeError] as
    well, because the fallback [soup.body] is [None]. *)
Theorem C9_scrape_manual_raises_on_fetched_pages :
  Readle.requests_get reader_world reader_url = Ok sample_response
  /\ html_parser (runtime_of 0 empty_title_page) (text sample_response)
     = Ok empty_title_page
  /\ find (named [lit "article"]) empty_title_page
     = Some (tag "article" [tag "p" [txt "Some text."]])
  /\ Readle.scrape_manual (runtime_of 0 empty_title_page) reader_world
       reader_url
     = Err (Exn AttributeError
              (lit "'NoneType' object has no attribute 'strip'"))
  /\ html_parser (runtime_of 0 bare_page) (text sample_response)
     = Ok bare_page
  /\ Readle.page_title bare_page = Ok (lit "(no title)")
  /\ Readle.scrape_manual (runtime_of 0 bare_page) reader_world reader_url
     = Err (Exn AttributeError
              (lit "'NoneType' object has no attribute 'find_all'")).
Proof.
  split; [reflexivity|]. split; [reflexivity|].
  split; [vm_compute; reflexivity|]. split; [vm_compute; reflexivity|].
  split; [reflexivity|]. split; [vm_compute; reflexivity|].
  vm_compute. reflexivity.
Qed.
